(** * MRZ pipeline of the camera service

    A shallow embedding of [parseMRZFromText], [getDocumentType] and
    [formatMRZDate] from [src/app/services/camera.service.ts], with the
    JavaScript string built-ins they call, and the properties of the
    pipeline proved over it.

    Text is an ASCII transcript: a character is an [ascii], a JavaScript
    string a [string].  The two signals the pipeline writes ([mrzData] and
    [mrzError]) are threaded as explicit state, and completions are the
    JavaScript ones: normal, [return], or a thrown value. *)

From Stdlib Require Import String Ascii List Bool Arith ZArith Lia.
Import ListNotations.

Open Scope string_scope.
Open Scope nat_scope.

(* ================================================================= *)
(** ** JavaScript string built-ins used by the service *)

Module JS.

(** Character classes, on the ASCII range. [isWhiteSpace] is the class
    [\s] (and what [trim] strips): TAB, LF, VT, FF, CR and SPACE. *)
Definition isWhiteSpace (c : ascii) : bool :=
  let n := nat_of_ascii c in ((9 <=? n) && (n <=? 13)) || (n =? 32).

Definition isDigit (c : ascii) : bool :=
  let n := nat_of_ascii c in (48 <=? n) && (n <=? 57).

Definition isUpper (c : ascii) : bool :=
  let n := nat_of_ascii c in (65 <=? n) && (n <=? 90).

Definition isLower (c : ascii) : bool :=
  let n := nat_of_ascii c in (97 <=? n) && (n <=? 122).

Definition upcase (c : ascii) : ascii :=
  if isLower c then ascii_of_nat (nat_of_ascii c - 32) else c.

Fixpoint mapChars (f : ascii -> ascii) (s : string) : string :=
  match s with
  | EmptyString => EmptyString
  | String c r => String (f c) (mapChars f r)
  end.

Fixpoint filterChars (p : ascii -> bool) (s : string) : string :=
  match s with
  | EmptyString => EmptyString
  | String c r => if p c then String c (filterChars p r) else filterChars p r
  end.

Fixpoint allChars (p : ascii -> bool) (s : string) : bool :=
  match s with
  | EmptyString => true
  | String c r => p c && allChars p r
  end.

(** [s.toUpperCase()] *)
Definition toUpperCase (s : string) : string := mapChars upcase s.

(** [s.trim()] *)
Fixpoint trimStart (s : string) : string :=
  match s with
  | EmptyString => EmptyString
  | String c r => if isWhiteSpace c then trimStart r else s
  end.

Fixpoint trimEnd (s : string) : string :=
  match s with
  | EmptyString => EmptyString
  | String c r =>
      match trimEnd r with
      | EmptyString => if isWhiteSpace c then EmptyString else String c EmptyString
      | r' => String c r'
      end
  end.

Definition trim (s : string) : string := trimEnd (trimStart s).

(** [s.split(sep)] for a one-character separator: never the empty list,
    [''.split(sep)] is [['']]. *)
Fixpoint split (sep : ascii) (s : string) : list string :=
  match s with
  | EmptyString => [EmptyString]
  | String c r =>
      if Ascii.eqb c sep then EmptyString :: split sep r
      else match split sep r with
           | [] => [String c EmptyString]
           | h :: t => String c h :: t
           end
  end.

(** [s.includes(c)] for a one-character needle. *)
Fixpoint includes (c : ascii) (s : string) : bool :=
  match s with
  | EmptyString => false
  | String d r => Ascii.eqb d c || includes c r
  end.

(** [s.replace(/\s/g, '')] *)
Definition removeWhiteSpace (s : string) : string :=
  filterChars (fun c => negb (isWhiteSpace c)) s.

(** [s.replace(/a/g, 'b')] for single characters [a] and [b]. *)
Definition replaceAll (a b : ascii) (s : string) : string :=
  mapChars (fun c => if Ascii.eqb c a then b else c) s.

Fixpoint take (n : nat) (s : string) : string :=
  match n, s with
  | S n', String c r => String c (take n' r)
  | _, _ => EmptyString
  end.

Fixpoint drop (n : nat) (s : string) : string :=
  match n, s with
  | S n', String _ r => drop n' r
  | _, _ => s
  end.

(** [s.substring(start, end)]: the indices are clamped to the length by
    [take] and [drop], and swapped when [start > end]. *)
Definition substring (start stop : nat) (s : string) : string :=
  let lo := Nat.min start stop in
  let hi := Nat.max start stop in
  take (hi - lo) (drop lo s).

(** [s.charAt(i)]: the empty string out of range. *)
Definition charAt (i : nat) (s : string) : string := take 1 (drop i s).

(** The filler of [padEnd]: [n] characters, cycling through [pad];
    [rest] is what is left of the current copy of [pad]. *)
Fixpoint fill (n : nat) (pad rest : string) : string :=
  match n with
  | 0 => EmptyString
  | S n' =>
      match rest with
      | String c r => String c (fill n' pad r)
      | EmptyString =>
          match pad with
          | String c r => String c (fill n' pad r)
          | EmptyString => EmptyString
          end
      end
  end.

(** [s.padEnd(targetLength, padString)] *)
Definition padEnd (targetLength : nat) (padString : string) (s : string) : string :=
  s ++ fill (targetLength - String.length s) padString padString.

(** [arr.slice(0, n)] *)
Definition slice0 {A : Type} (n : nat) (l : list A) : list A := firstn n l.

(** [parseInt(s)] with no radix: leading white space is skipped, then an
    optional sign, then an optional [0x]/[0X] prefix (radix 16), then the
    longest run of digits of the radix.  [None] is [NaN]. *)
Definition digitValue (radix : nat) (c : ascii) : option nat :=
  let n := nat_of_ascii c in
  let v := if isDigit c then Some (n - 48)
           else if isUpper c then Some (n - 55)
           else if isLower c then Some (n - 87)
           else None in
  match v with
  | Some d => if d <? radix then Some d else None
  | None => None
  end.

Fixpoint parseDigits (radix : nat) (acc : option Z) (s : string) : option Z :=
  match s with
  | EmptyString => acc
  | String c r =>
      match digitValue radix c with
      | Some d =>
          let a := match acc with Some a => a | None => 0%Z end in
          parseDigits radix (Some (Z.of_nat radix * a + Z.of_nat d)%Z) r
      | None => acc
      end
  end.

Definition parseInt (s : string) : option Z :=
  let s1 := trimStart s in
  let '(sign, s2) :=
    match s1 with
    | String "-" r => ((-1)%Z, r)
    | String "+" r => (1%Z, r)
    | _ => (1%Z, s1)
    end in
  let '(radix, s3) :=
    match s2 with
    | String "0" (String x r) =>
        if Ascii.eqb x "x" || Ascii.eqb x "X" then (16, r) else (10, s2)
    | _ => (10, s2)
    end in
  option_map (Z.mul sign) (parseDigits radix None s3).

(** [x < n] on numbers: false when [x] is [NaN]. *)
Definition lessThan (x : option Z) (n : Z) : bool :=
  match x with
  | Some v => (v <? n)%Z
  | None => false
  end.

(** Truthiness of a string and [s || d]. *)
Definition truthy (s : string) : bool :=
  match s with EmptyString => false | _ => true end.

Definition orElse (s : option string) (d : string) : string :=
  match s with
  | Some v => if truthy v then v else d
  | None => d
  end.

End JS.

(* ================================================================= *)
(** ** The [mrz] package, as the service sees it *)

Module Mrz.

(** The fields of a parse result that the service reads; each is
    [string | null]. *)
Record Fields := {
  documentCode : option string;
  documentNumber : option string;
  firstName : option string;
  lastName : option string;
  nationality : option string;
  birthDate : option string;
  sex : option string;
  expirationDate : option string;
  issuingState : option string
}.

Record ParseResult := {
  valid : bool;
  fields : Fields
}.

End Mrz.

(** A thrown value. *)
Record Error := { message : string }.

(** What a call gives back: a value, or a thrown error. *)
Inductive Outcome (A : Type) : Type :=
| Returns (a : A)
| Throws (e : Error).
Arguments Returns {A} a.
Arguments Throws {A} e.

(** The parser of the [mrz] package: a function of the lines it is given.
    [None] stands for a falsy result, which [parseResult && ...] guards
    against. *)
Definition Parser := list string -> Outcome (option Mrz.ParseResult).

(* ================================================================= *)
(** ** State and completions *)

(** interface MRZData *)
Record MRZData := {
  documentType : string;
  documentNumber : string;
  firstName : string;
  lastName : string;
  nationality : string;
  birthDate : string;
  sex : string;
  expirationDate : string;
  issuingState : string;
  valid : bool;
  rawMRZ : list string
}.

(** The two signals written by the pipeline (the other signals of the
    service are not touched by it).  [parseCalls] is a ghost
    field: the argument of every call made to the parser, oldest first. *)
Record State := {
  mrzData : option MRZData;
  mrzError : option string;
  parseCalls : list (list string)
}.

(** Completion of a statement list inside a function body. *)
Inductive Completion (A : Type) : Type :=
| Normal (a : A)
| Return
| Throw (e : Error).
Arguments Normal {A} a.
Arguments Return {A}.
Arguments Throw {A} e.

Definition M (A : Type) : Type := State -> State * Completion A.

Definition ret {A : Type} (a : A) : M A := fun s => (s, Normal a).

Definition bind {A B : Type} (m : M A) (k : A -> M B) : M B :=
  fun s =>
    match m s with
    | (s', Normal a) => k a s'
    | (s', Return) => (s', Return)
    | (s', Throw e) => (s', Throw e)
    end.

(** [return;] *)
Definition return_ {A : Type} : M A := fun s => (s, Return).

Definition throw {A : Type} (e : Error) : M A := fun s => (s, Throw e).

(** [try { m } catch (e) { h e }]: state changes made before the throw
    are kept. *)
Definition tryCatch {A : Type} (m : M A) (h : Error -> M A) : M A :=
  fun s =>
    match m s with
    | (s', Throw e) => h e s'
    | r => r
    end.

(** The boundary of a [void] method: [return] completes the call. *)
Definition call (m : M unit) : State -> State * Outcome unit :=
  fun s =>
    match m s with
    | (s', Normal _) => (s', Returns tt)
    | (s', Return) => (s', Returns tt)
    | (s', Throw e) => (s', Throws e)
    end.

Declare Scope js_scope.
Delimit Scope js_scope with js.
Notation "x <- m ;; k" := (bind m (fun x => k))
  (at level 61, m at next level, right associativity) : js_scope.
Notation "m ;; k" := (bind m (fun _ => k))
  (at level 61, right associativity) : js_scope.

(** [this.mrzData.set(v)] and [this.mrzError.set(v)] *)
Definition setMrzData (v : option MRZData) : M unit :=
  fun s => ({| mrzData := v; mrzError := mrzError s; parseCalls := parseCalls s |},
            Normal tt).

Definition setMrzError (v : option string) : M unit :=
  fun s => ({| mrzData := mrzData s; mrzError := v; parseCalls := parseCalls s |},
            Normal tt).

(* ================================================================= *)
(** ** The service *)

Definition LF : ascii := "010"%char.

Definition msgNoMRZ : string :=
  "No MRZ detected. Position the MRZ zone (bottom of ID/passport) in view.".
Definition msgIncomplete : string :=
  "Incomplete MRZ detected. Need at least 2 lines.".
Definition msgValidationFailed : string :=
  "MRZ detected but validation failed. Try adjusting the camera angle.".
Definition msgCouldNotParse : string :=
  "Could not parse MRZ. Ensure the document is clearly visible.".

(** private getDocumentType(code: string): string *)
Definition getDocumentType (code : string) : string :=
  if negb (JS.truthy code) then "Unknown"
  else
    let firstChar := JS.toUpperCase (JS.charAt 0 code) in
    if String.eqb firstChar "P" then "Passport"
    else if String.eqb firstChar "I" then "ID Card"
    else if String.eqb firstChar "A" then "ID Card (Type A)"
    else if String.eqb firstChar "C" then "ID Card (Type C)"
    else if String.eqb firstChar "V" then "Visa"
    else if String.eqb firstChar "D" then "Driver's License"
    else "Document (" ++ code ++ ")".

(** private formatMRZDate(dateStr: string | undefined): string *)
Definition formatMRZDate (dateStr : option string) : string :=
  match dateStr with
  | None => ""
  | Some d =>
      if negb (JS.truthy d) || negb (String.length d =? 6) then ""
      else
        let year := JS.substring 0 2 d in
        let month := JS.substring 2 4 d in
        let day := JS.substring 4 6 d in
        let fullYear :=
          if JS.lessThan (JS.parseInt year) 30 then "20" ++ year else "19" ++ year in
        fullYear ++ "-" ++ month ++ "-" ++ day
  end.

(** [x || undefined] on a [string | null] *)
Definition orUndefined (x : option string) : option string :=
  match x with
  | Some v => if JS.truthy v then Some v else None
  | None => None
  end.

(** The character class [[A-Z0-9<]] and the test [/^[A-Z0-9<]{30,}$/]. *)
Definition isMRZChar (c : ascii) : bool :=
  JS.isUpper c || JS.isDigit c || Ascii.eqb c "<".

Definition matchesMRZPattern (s : string) : bool :=
  JS.allChars isMRZChar s && (30 <=? String.length s).

(** [text.split('\n').map(line => line.trim().toUpperCase())] *)
Definition upperLine (line : string) : string := JS.toUpperCase (JS.trim line).

Definition lines (text : string) : list string :=
  map upperLine (JS.split LF text).

(** The filter of candidate lines. *)
Definition isCandidate (line : string) : bool :=
  JS.includes "<" line || matchesMRZPattern (JS.removeWhiteSpace line).

Definition mrzLines (text : string) : list string :=
  filter isCandidate (lines text).

(** Clean MRZ lines - remove spaces, fix common OCR errors. *)
Definition cleanLine (line : string) : string :=
  JS.replaceAll "<" "<" (JS.replaceAll "O" "0" (JS.removeWhiteSpace line)).

Definition cleanedLines (text : string) : list string :=
  map cleanLine (mrzLines text).

(** [l.substring(0, w).padEnd(w, '<')] *)
Definition fitWidth (w : nat) (l : string) : string :=
  JS.padEnd w "<" (JS.substring 0 w l).

Definition td1Lines (cleaned : list string) : list string :=
  map (fitWidth 30) (JS.slice0 3 cleaned).

Definition td2Lines (cleaned : list string) : list string :=
  map (fitWidth 36) (JS.slice0 2 cleaned).

Definition td3Lines (cleaned : list string) : list string :=
  map (fitWidth 44) (JS.slice0 2 cleaned).

(** The whole transform a transcript line goes through before a parse
    attempt at width [w]. *)
Definition normalize (w : nat) (line : string) : string :=
  fitWidth w (cleanLine (upperLine line)).

(** The object literal of lines 234-246, built from a valid parse result. *)
Definition mrzRecord (cleaned : list string) (parseResult : Mrz.ParseResult) : MRZData :=
  let fields := Mrz.fields parseResult in
  {| documentType := getDocumentType (JS.orElse (Mrz.documentCode fields) "");
     documentNumber := JS.orElse (Mrz.documentNumber fields) "";
     firstName := JS.orElse (Mrz.firstName fields) "";
     lastName := JS.orElse (Mrz.lastName fields) "";
     nationality := JS.orElse (Mrz.nationality fields) "";
     birthDate := formatMRZDate (orUndefined (Mrz.birthDate fields));
     sex := JS.orElse (Mrz.sex fields) "";
     expirationDate := formatMRZDate (orUndefined (Mrz.expirationDate fields));
     issuingState := JS.orElse (Mrz.issuingState fields) "";
     valid := Mrz.valid parseResult;
     rawMRZ := cleaned |}.

Section Service.

Variable parseMRZ : Parser.

Local Open Scope js_scope.

(** [parseMRZ(lines)], recorded in [parseCalls]. *)
Definition callParseMRZ (ls : list string) : M (option Mrz.ParseResult) :=
  fun s =>
    let s' := {| mrzData := mrzData s; mrzError := mrzError s;
                 parseCalls := parseCalls s ++ [ls] |} in
    match parseMRZ ls with
    | Returns r => (s', Normal r)
    | Throws e => (s', Throw e)
    end.

(** [cleanedLines[0].length]: reading [length] of [undefined] throws. *)
Definition firstLength (cleaned : list string) : M nat :=
  match cleaned with
  | l :: _ => ret (String.length l)
  | [] => throw {| message := "Cannot read properties of undefined" |}
  end.

(** Lines 232-251: the record or the validation diagnostic. *)
Definition project (cleaned : list string)
           (parseResult : option Mrz.ParseResult) : M unit :=
  match parseResult with
  | Some pr =>
      if Mrz.valid pr then
        setMrzData (Some (mrzRecord cleaned pr)) ;;
        setMrzError None
      else
        setMrzData None ;;
        setMrzError (Some msgValidationFailed)
  | None =>
      setMrzData None ;;
      setMrzError (Some msgValidationFailed)
  end.

(** Lines 206-230: the parse attempts. *)
Definition selectAndParse (cleaned : list string) : M (option Mrz.ParseResult) :=
  if 3 <=? List.length cleaned then
    tryCatch (callParseMRZ (td1Lines cleaned))
             (fun _ => callParseMRZ (td2Lines cleaned))
  else if 2 <=? List.length cleaned then
    lineLength <- firstLength cleaned ;;
    if 44 <=? lineLength then callParseMRZ (td3Lines cleaned)
    else callParseMRZ (td2Lines cleaned)
  else
    setMrzData None ;;
    setMrzError (Some msgIncomplete) ;;
    return_.

(** The body of the outer [try]. *)
Definition parseBody (text : string) : M unit :=
  let mrzLines := mrzLines text in
  (if List.length mrzLines =? 0 then
     setMrzData None ;;
     setMrzError (Some msgNoMRZ) ;;
     return_
   else ret tt) ;;
  let cleaned := map cleanLine mrzLines in
  parseResult <- selectAndParse cleaned ;;
  project cleaned parseResult.

(** private parseMRZFromText(text: string): void.  The [console.error] of
    the outer [catch] writes to the console only and is left out. *)
Definition parseMRZFromText (text : string) : State -> State * Outcome unit :=
  call (tryCatch (parseBody text)
                 (fun _ =>
                    setMrzData None ;;
                    setMrzError (Some msgCouldNotParse))).

End Service.

(* ================================================================= *)
(** ** A reference field parser *)

(** Modelled from the spec: the field parser and validator of section 4.4,
    which the service imports from the [mrz] package (not under src/).
    Lines are sliced at the fixed positions of the format, the check digits
    of document number, birth date, expiration date and of the composite are
    recomputed (digits count as themselves, letters as position in the
    alphabet plus 10, the filler as 0, weights cycling 7, 3, 1, modulo 10),
    and [valid] is their conjunction.  As section 4.4 has it, the parser
    never throws on lines of a format's width, whatever their characters;
    a list of lines of no known shape is a violated precondition and
    throws.  The theorems below hold for every parser; this one only
    serves as a concrete instance. *)
Module MrzModel.

Definition charValue (c : ascii) : nat :=
  if JS.isDigit c then nat_of_ascii c - 48
  else if JS.isUpper c then nat_of_ascii c - 55
  else 0.

Fixpoint weightedSum (w1 w2 w3 : nat) (s : string) : nat :=
  match s with
  | EmptyString => 0
  | String c r => w1 * charValue c + weightedSum w2 w3 w1 r
  end.

Definition checkDigit (s : string) : nat := weightedSum 7 3 1 s mod 10.

Definition checks (field cd : string) : bool :=
  String.eqb cd (String (ascii_of_nat (48 + checkDigit field)) EmptyString).

Fixpoint beforeSep (s : string) : string :=
  match s with
  | String "<" (String "<" _) => EmptyString
  | String c r => String c (beforeSep r)
  | EmptyString => EmptyString
  end.

Fixpoint afterSep (s : string) : string :=
  match s with
  | String "<" (String "<" r) => r
  | String _ r => afterSep r
  | EmptyString => EmptyString
  end.

Definition fieldText (s : string) : string :=
  JS.trim (JS.replaceAll "<" " " s).

Definition result (code state names number numberCd nat birth birthCd
                   sx expiry expiryCd composite compositeCd : string)
  : Mrz.ParseResult :=
  {| Mrz.valid := checks number numberCd && checks birth birthCd
                  && checks expiry expiryCd && checks composite compositeCd;
     Mrz.fields := {|
       Mrz.documentCode := Some (fieldText code);
       Mrz.documentNumber := Some (fieldText number);
       Mrz.firstName := Some (fieldText (afterSep names));
       Mrz.lastName := Some (fieldText (beforeSep names));
       Mrz.nationality := Some (fieldText nat);
       Mrz.birthDate := Some birth;
       Mrz.sex := Some (fieldText sx);
       Mrz.expirationDate := Some expiry;
       Mrz.issuingState := Some (fieldText state) |} |}.

Definition sub := JS.substring.

Definition td1 (l1 l2 l3 : string) : Mrz.ParseResult :=
  result (sub 0 2 l1) (sub 2 5 l1) l3
         (sub 5 14 l1) (sub 14 15 l1) (sub 15 18 l2)
         (sub 0 6 l2) (sub 6 7 l2) (sub 7 8 l2)
         (sub 8 14 l2) (sub 14 15 l2)
         (sub 5 30 l1 ++ sub 0 7 l2 ++ sub 8 15 l2 ++ sub 18 29 l2)
         (sub 29 30 l2).

(** TD2 ([w] = 36) and TD3 ([w] = 44) share the layout up to the
    optional field. *)
Definition td23 (w : nat) (l1 l2 : string) : Mrz.ParseResult :=
  result (sub 0 2 l1) (sub 2 5 l1) (sub 5 w l1)
         (sub 0 9 l2) (sub 9 10 l2) (sub 10 13 l2)
         (sub 13 19 l2) (sub 19 20 l2) (sub 20 21 l2)
         (sub 21 27 l2) (sub 27 28 l2)
         (sub 0 10 l2 ++ sub 13 20 l2 ++ sub 21 (w - 1) l2)
         (sub (w - 1) w l2).

Definition hasWidth (w : nat) (ls : list string) : bool :=
  forallb (fun l => String.length l =? w) ls.

Definition parse : Parser :=
  fun ls =>
    match ls with
    | [l1; l2; l3] =>
        if hasWidth 30 ls then Returns (Some (td1 l1 l2 l3))
        else Throws {| message := "unrecognized document format" |}
    | [l1; l2] =>
        if hasWidth 36 ls then Returns (Some (td23 36 l1 l2))
        else if hasWidth 44 ls then Returns (Some (td23 44 l1 l2))
        else Throws {| message := "unrecognized document format" |}
    | _ => Throws {| message := "unrecognized document format" |}
    end.

End MrzModel.

(** The parser behind the line check of the [mrz] package.  The package
    (not under src/, and this check is not in the spec) tests every line
    against the unanchored pattern [/[A-Z0-9<]+/] before it parses, and
    throws a TypeError when a line has no match, that is when no character
    of the line is in the MRZ alphabet; a line that merely holds other
    characters passes.  With the widths right by construction this is the
    only way a parse attempt of the pipeline throws.  After the check the
    lines are parsed as in [MrzModel.parse].  It serves as the concrete
    instance wherever an instance needs a parser that throws. *)
Module MrzPackage.

Definition hasMRZChar (line : string) : bool :=
  negb (JS.allChars (fun c => negb (isMRZChar c)) line).

Definition checkLines (ls : list string) : bool := forallb hasMRZChar ls.

Definition parse : Parser :=
  fun ls =>
    if checkLines ls then MrzModel.parse ls
    else Throws {| message := "lines must be composed of only alphanumerical characters and <" |}.

End MrzPackage.

(** The initial value of the signals. *)
Definition initialState : State :=
  {| mrzData := None; mrzError := None; parseCalls := [] |}.

Definition nl : string := String LF EmptyString.

Definition td3Text : string :=
  "P<UTOERIKSSON<<ANNA<MARIA<<<<<<<<<<<<<<<<<<<" ++ nl ++
  "L898902C36UTO7408122F1204159ZE184226B<<<<<10".

Definition td2Text : string :=
  "I<UTOERIKSSON<<ANNA<MARIA<<<<<<<<<<<" ++ nl ++
  "D231458907UTO7408122F1204159<<<<<<<6".

Definition td1Text : string :=
  "I<UTOD231458907<<<<<<<<<<<<<<<" ++ nl ++
  "7408122F1204159UTO<<<<<<<<<<<6" ++ nl ++
  "ERIKSSON<<ANNA<MARIA<<<<<<<<<<".


(** Transcripts around the specimens. *)

(** A printed rule as the recognition reads it: 44 hyphens, then a
    filler.  It is a candidate line, and none of its first 44 characters is
    in the MRZ alphabet. *)
Definition rule : string :=
  "--------------------------------------------<".

(** A TD2 document without the letter O (the check digits are those of
    the specimen, which do not cover state and names), and the first line
    of a TD3 document without it. *)
Definition plainTd2Text : string :=
  "I<GBRERIKSSEN<<ANNA<MARIA<<<<<<<<<<<" ++ nl ++
  "D231458907GBR7408122F1204159<<<<<<<6".

Definition plainTd3Line1 : string :=
  "P<GBRERIKSSEN<<ANNA<MARIA<<<<<<<<<<<<<<<<<<<".

(** The TD2 document followed by a rule, read as a third candidate line. *)
Definition ruledThirdText : string := plainTd2Text ++ nl ++ rule.

(** The first line of the TD3 document followed by a rule. *)
Definition ruledText : string := plainTd3Line1 ++ nl ++ rule.

(** Three TD2-shaped lines: the TD2 specimen and a line of 36 fillers. *)
Definition threeTd2Text : string :=
  td2Text ++ nl ++ "<<<<<<<<<<<<<<<<<<<<<<<<<<<<<<<<<<<<".

(** Two lines of prose that hold fillers. *)
Definition proseText : string :=
  "Name: DOE<<JOHN" ++ nl ++ "No: <12345>".

(** The TD3 specimen with one more filler read at the end of line 2. *)
Definition noisyTd3Text : string := td3Text ++ "<".

(** The TD3 specimen with the check digit of the document number
    changed from 6 to 7. *)
Definition corruptTd3Text : string :=
  "P<UTOERIKSSON<<ANNA<MARIA<<<<<<<<<<<<<<<<<<<" ++ nl ++
  "L898902C37UTO7408122F1204159ZE184226B<<<<<10".

(** The first line of the TD3 specimen alone. *)
Definition oneLineText : string :=
  "P<UTOERIKSSON<<ANNA<MARIA<<<<<<<<<<<<<<<<<<<".

(* ================================================================= *)
(** ** Vocabulary of the statements *)

(** The state the signals are left in by one invocation. *)
Definition final (p : Parser) (text : string) (s : State) : State :=
  fst (parseMRZFromText p text s).

(** State [s] once the signals have been written with [sig] and the parser
    has been called on [calls]. *)
Definition written (s : State) (sig : option MRZData * option string)
           (calls : list (list string)) : State :=
  {| mrzData := fst sig; mrzError := snd sig;
     parseCalls := parseCalls s ++ calls |}.

(** The signals after the last parse attempt gave [o]. *)
Definition settled (cleaned : list string)
           (o : Outcome (option Mrz.ParseResult)) : option MRZData * option string :=
  match o with
  | Returns (Some pr) =>
      if Mrz.valid pr then (Some (mrzRecord cleaned pr), None)
      else (None, Some msgValidationFailed)
  | Returns None => (None, Some msgValidationFailed)
  | Throws _ => (None, Some msgCouldNotParse)
  end.

(** A parse result that does not report a valid document. *)
Definition reportsInvalid (r : option Mrz.ParseResult) : Prop :=
  match r with
  | Some pr => Mrz.valid pr = false
  | None => True
  end.

(** A line that is already normalized for width [w]: over the MRZ alphabet
    (so upper case, without white space), without the letter O, of length
    [w]. *)
Definition normalizedChar (c : ascii) : bool :=
  isMRZChar c && negb (Ascii.eqb c "O").

(** A character that the transform leaves alone: no white space, no lower
    case letter, no letter O. *)
Definition stableChar (c : ascii) : bool :=
  negb (JS.isWhiteSpace c) && negb (JS.isLower c) && negb (Ascii.eqb c "O").

Definition isNormalized (w : nat) (line : string) : Prop :=
  JS.allChars normalizedChar line = true /\ String.length line = w.

(** The two-digit year written by the digits [y1 y2], and its century. *)
Definition digitVal (c : ascii) : nat := nat_of_ascii c - 48.

Definition yearOf (y1 y2 : ascii) : nat := 10 * digitVal y1 + digitVal y2.

Definition century (y1 y2 : ascii) : string :=
  if yearOf y1 y2 <? 30 then "20" else "19".

(** The century the code infers for a date string, from its first two
    characters. *)
Definition centuryOf (d : string) : string :=
  match d with
  | String y1 (String y2 _) => century y1 y2
  | _ => "19"
  end.

Definition str2 (a b : ascii) : string := String a (String b EmptyString).

Definition str6 (y1 y2 m1 m2 d1 d2 : ascii) : string :=
  String y1 (String y2 (String m1 (String m2 (String d1 (String d2 EmptyString))))).

(* ================================================================= *)
(** ** The rest of the service: captured images and scanning *)

(** The [type] of a captured image. *)
Inductive ImageType : Type := license | identity | other.

(** interface CapturedImage; [timestamp] is the time value of the [Date]. *)
Record CapturedImage := {
  id : string;
  dataUrl : string;
  timestamp : Z;
  type : ImageType
}.

(** The signals of the service that the methods below read or write; the
    MRZ signals are those of [State].  [error], [mediaStream] and
    [scanInterval] belong to [startCamera] and [stopCamera] only. *)
Record Service := {
  isStreaming : bool;
  capturedImages : list CapturedImage;
  scannedText : string;
  isScanning : bool;
  scanProgress : Z;
  signals : State
}.

Definition setIsScanning (v : bool) (sv : Service) : Service :=
  {| isStreaming := isStreaming sv; capturedImages := capturedImages sv;
     scannedText := scannedText sv; isScanning := v;
     scanProgress := scanProgress sv; signals := signals sv |}.

Definition setScanProgress (v : Z) (sv : Service) : Service :=
  {| isStreaming := isStreaming sv; capturedImages := capturedImages sv;
     scannedText := scannedText sv; isScanning := isScanning sv;
     scanProgress := v; signals := signals sv |}.

Definition setScannedText (v : string) (sv : Service) : Service :=
  {| isStreaming := isStreaming sv; capturedImages := capturedImages sv;
     scannedText := v; isScanning := isScanning sv;
     scanProgress := scanProgress sv; signals := signals sv |}.

Definition setSignals (v : State) (sv : Service) : Service :=
  {| isStreaming := isStreaming sv; capturedImages := capturedImages sv;
     scannedText := scannedText sv; isScanning := isScanning sv;
     scanProgress := scanProgress sv; signals := v |}.

Definition setCapturedImages (v : list CapturedImage) (sv : Service) : Service :=
  {| isStreaming := isStreaming sv; capturedImages := v;
     scannedText := scannedText sv; isScanning := isScanning sv;
     scanProgress := scanProgress sv; signals := signals sv |}.

(** [this.mrzData.set(v)] and [this.mrzError.set(v)] on the service. *)
Definition writeMrzData (v : option MRZData) (sv : Service) : Service :=
  setSignals (fst (setMrzData v (signals sv))) sv.

Definition writeMrzError (v : option string) (sv : Service) : Service :=
  setSignals (fst (setMrzError v (signals sv))) sv.

(** The canvas a video frame is drawn on: whether [getContext('2d')] gives
    a context, and what [toDataURL] gives for a MIME type (the quality
    argument of the JPEG encoding is part of the encoder). *)
Record Canvas := {
  hasContext : bool;
  toDataURL : string -> string
}.

(** What [Tesseract.recognize] does with an image: the messages it passes
    to the logger, in order, then the text of its result, or a rejection.
    [percent] is [Math.round(m.progress * 100)]. *)
Record LoggerMessage := {
  status : string;
  percent : Z
}.

Record Recognition := {
  logged : list LoggerMessage;
  recognized : Outcome string
}.

(** The logger passed to [Tesseract.recognize]. *)
Definition logger (m : LoggerMessage) (sv : Service) : Service :=
  if String.eqb (status m) "recognizing text" then setScanProgress (percent m) sv
  else sv.

Section Scanning.

Variable parseMRZ : Parser.
Variable recognize : string -> Recognition.

(** Lines 126-143 and 157-174, the same in both scanning methods: the
    recognition, then the text, the MRZ parse and the end of the scan.
    One call is followed from start to end; no other method of the service
    runs while it awaits. *)
Definition recognizeAndParse (imageData : string) (sv : Service)
  : Service * Outcome string :=
  let r := recognize imageData in
  let sv1 := fold_left (fun acc m => logger m acc) (logged r) sv in
  match recognized r with
  | Throws e => (sv1, Throws e)
  | Returns raw =>
      let text := JS.trim raw in
      let sv2 := setScannedText text sv1 in
      match parseMRZFromText parseMRZ text (signals sv2) with
      | (st, Throws e) => (setSignals st sv2, Throws e)
      | (st, Returns _) =>
          (setScanProgress 100 (setIsScanning false (setSignals st sv2)),
           Returns text)
      end
  end.

(** The [try]/[catch] around it: [console.error], then the scan is over
    and the empty string is returned. *)
Definition scanOrEmpty (imageData : string) (sv : Service) : Service * string :=
  match recognizeAndParse imageData sv with
  | (sv', Returns text) => (sv', text)
  | (sv', Throws _) => (setIsScanning false sv', "")
  end.

(** Lines 106-108 and 152-154. *)
Definition beginScan (sv : Service) : Service :=
  writeMrzError None (setScanProgress 0 (setIsScanning true sv)).

(** async scanTextFromImage(imageDataUrl: string): Promise<string> *)
Definition scanTextFromImage (imageDataUrl : string) (sv : Service)
  : Service * string :=
  scanOrEmpty imageDataUrl (beginScan sv).

(** async scanTextFromVideo(videoElement: HTMLVideoElement): Promise<string>;
    [canvas] is the canvas the current frame is drawn on. *)
Definition scanTextFromVideo (canvas : Canvas) (sv : Service) : Service * string :=
  if negb (isStreaming sv) then (sv, "")
  else
    let sv0 := beginScan sv in
    if negb (hasContext canvas) then (setIsScanning false sv0, "")
    else scanOrEmpty (toDataURL canvas "image/png") sv0.

End Scanning.

(** clearScannedText(): void *)
Definition clearScannedText (sv : Service) : Service :=
  writeMrzError None (writeMrzData None (setScannedText "" sv)).

(** captureImage(videoElement, type): CapturedImage | null; [uuid] is what
    [crypto.randomUUID()] gives and [now] the time of [new Date()]. *)
Definition captureImage (canvas : Canvas) (uuid : string) (now : Z)
           (type : ImageType) (sv : Service) : Service * option CapturedImage :=
  if negb (isStreaming sv) then (sv, None)
  else if negb (hasContext canvas) then (sv, None)
  else
    let capturedImage :=
      {| id := uuid; dataUrl := toDataURL canvas "image/jpeg";
         timestamp := now; type := type |} in
    (setCapturedImages (capturedImages sv ++ [capturedImage]) sv,
     Some capturedImage).

(** removeImage(id: string): void *)
Definition imageId (img : CapturedImage) : string := id img.

Definition removeImage (id : string) (sv : Service) : Service :=
  setCapturedImages
    (filter (fun img => negb (String.eqb (imageId img) id)) (capturedImages sv)) sv.

(** clearAllImages(): void *)
Definition clearAllImages (sv : Service) : Service :=
  setCapturedImages [] sv.

(** A parser that returns a falsy result on every input. *)
Definition nullParser : Parser := fun _ => Returns None.

(** A service that is streaming, with no image and no scan made. *)
Definition streamingService : Service :=
  {| isStreaming := true; capturedImages := []; scannedText := "";
     isScanning := false; scanProgress := 0%Z; signals := initialState |}.

(** What one invocation does, as a function of the cleaned candidate
    lines: the signals it writes and the parser calls it makes. *)
Definition attemptSummary (p : Parser) (cl : list string)
  : (option MRZData * option string) * list (list string) :=
  match cl with
  | [] => ((None, Some msgNoMRZ), [])
  | [_] => ((None, Some msgIncomplete), [])
  | [l1; _] =>
      let ls := if 44 <=? String.length l1 then td3Lines cl else td2Lines cl in
      (settled cl (p ls), [ls])
  | _ =>
      match p (td1Lines cl) with
      | Returns r => (settled cl (Returns r), [td1Lines cl])
      | Throws _ => (settled cl (p (td2Lines cl)), [td1Lines cl; td2Lines cl])
      end
  end.

(** The O to 0 replacement on one character. *)
Definition zeroO (c : ascii) : ascii := if Ascii.eqb c "O" then "0"%char else c.

(** The first letters that [getDocumentType] has a label for. *)
Definition labelled (c : ascii) : bool :=
  existsb (Ascii.eqb c) ["P"; "I"; "A"; "C"; "V"; "D"]%char.

(** A recognition that reports progress twice and reads the TD3 specimen,
    with white space around it; and one that is rejected. *)
Definition specimenRecognizer : string -> Recognition :=
  fun _ =>
    {| logged := [ {| status := "loading language traineddata"; percent := 100%Z |};
                   {| status := "recognizing text"; percent := 40%Z |};
                   {| status := "recognizing text"; percent := 90%Z |} ];
       recognized := Returns ("  " ++ td3Text ++ nl) |}.

Definition failingRecognizer : string -> Recognition :=
  fun _ =>
    {| logged := [ {| status := "recognizing text"; percent := 40%Z |} ];
       recognized := Throws {| message := "Error attempting to read image." |} |}.

(** The transcript without its white space, line feeds apart. *)
Definition withoutBlanks (text : string) : string :=
  JS.filterChars (fun c => negb (JS.isWhiteSpace c) || Ascii.eqb c LF) text.

(** A canvas with a 2D context, and a streaming service that holds two
    images. *)
Definition blankCanvas : Canvas :=
  {| hasContext := true; toDataURL := fun _ => "data:," |}.

Definition twoImagesService : Service :=
  {| isStreaming := true;
     capturedImages :=
       [ {| id := "id-1"; dataUrl := "data:,"; timestamp := 0%Z; type := license |};
         {| id := "id-2"; dataUrl := "data:,"; timestamp := 1%Z; type := identity |} ];
     scannedText := ""; isScanning := false; scanProgress := 0%Z;
     signals := initialState |}.

(** The shapes of line lists that the formats of the parser have. *)
Definition wellShaped (ls : list string) : Prop :=
  (List.length ls = 3 /\ Forall (fun l => String.length l = 30) ls)
  \/ (List.length ls = 2 /\ Forall (fun l => String.length l = 36) ls)
  \/ (List.length ls = 2 /\ Forall (fun l => String.length l = 44) ls).

(* ================================================================= *)
(** ** Lemmas on the string built-ins *)

Module JSFacts.
Import JS.

Lemma length_app (s t : string) :
  String.length (s ++ t) = String.length s + String.length t.
Proof. induction s as [|c s IH]; simpl; [reflexivity | now rewrite IH]. Qed.

Lemma app_empty_r (s : string) : s ++ "" = s.
Proof. induction s as [|c s IH]; simpl; [reflexivity | now rewrite IH]. Qed.

Lemma length_take (n : nat) (s : string) :
  String.length (take n s) = Nat.min n (String.length s).
Proof.
  revert s; induction n as [|n IH]; intros [|c s]; simpl; try reflexivity.
  now rewrite IH.
Qed.

Lemma take_all (n : nat) (s : string) :
  String.length s <= n -> take n s = s.
Proof.
  revert s; induction n as [|n IH]; intros [|c s]; simpl; intros H;
    try reflexivity; try lia.
  f_equal; apply IH; lia.
Qed.

Lemma substring_from_0 (w : nat) (s : string) : substring 0 w s = take w s.
Proof. unfold substring; simpl. now rewrite Nat.sub_0_r. Qed.

Lemma length_fill (n : nat) (pad rest : string) :
  pad <> "" -> String.length (fill n pad rest) = n.
Proof.
  intros Hpad; revert rest; induction n as [|n IH]; intros rest; simpl.
  - reflexivity.
  - destruct rest as [|c r]; simpl.
    + destruct pad as [|c r]; [congruence | simpl; now rewrite IH].
    + now rewrite IH.
Qed.

Lemma length_padEnd (w : nat) (pad s : string) :
  pad <> "" -> String.length (padEnd w pad s) = Nat.max w (String.length s).
Proof.
  intros Hpad; unfold padEnd.
  rewrite length_app, length_fill by assumption. lia.
Qed.

Lemma padEnd_full (w : nat) (pad s : string) :
  w <= String.length s -> padEnd w pad s = s.
Proof.
  intros H; unfold padEnd.
  replace (w - String.length s) with 0 by lia.
  simpl; apply app_empty_r.
Qed.

Lemma mapChars_id (f : ascii -> ascii) (p : ascii -> bool) (s : string) :
  (forall c, p c = true -> f c = c) ->
  allChars p s = true -> mapChars f s = s.
Proof.
  intros Hf; induction s as [|c s IH]; simpl; intros H; [reflexivity|].
  apply andb_prop in H as [Hc Hs].
  now rewrite (Hf c Hc), IH.
Qed.

Lemma filterChars_id (q p : ascii -> bool) (s : string) :
  (forall c, p c = true -> q c = true) ->
  allChars p s = true -> filterChars q s = s.
Proof.
  intros Hq; induction s as [|c s IH]; simpl; intros H; [reflexivity|].
  apply andb_prop in H as [Hc Hs].
  now rewrite (Hq c Hc), IH.
Qed.

Lemma trimStart_id (p : ascii -> bool) (s : string) :
  (forall c, p c = true -> isWhiteSpace c = false) ->
  allChars p s = true -> trimStart s = s.
Proof.
  intros Hp; destruct s as [|c s]; simpl; intros H; [reflexivity|].
  apply andb_prop in H as [Hc _]. now rewrite (Hp c Hc).
Qed.

Lemma trimEnd_id (p : ascii -> bool) (s : string) :
  (forall c, p c = true -> isWhiteSpace c = false) ->
  allChars p s = true -> trimEnd s = s.
Proof.
  intros Hp; induction s as [|c s IH]; simpl; intros H; [reflexivity|].
  apply andb_prop in H as [Hc Hs].
  rewrite (IH Hs), (Hp c Hc). now destruct s.
Qed.

Lemma trim_id (p : ascii -> bool) (s : string) :
  (forall c, p c = true -> isWhiteSpace c = false) ->
  allChars p s = true -> trim s = s.
Proof.
  intros Hp H; unfold trim.
  rewrite (trimStart_id p s Hp H). now apply (trimEnd_id p).
Qed.

Lemma replaceAll_same (a : ascii) (s : string) : replaceAll a a s = s.
Proof.
  unfold replaceAll; induction s as [|c s IH]; simpl; [reflexivity|].
  rewrite IH. destruct (Ascii.eqb c a) eqn:E; [|reflexivity].
  apply Ascii.eqb_eq in E; now subst.
Qed.

Lemma allChars_weaken (p q : ascii -> bool) (s : string) :
  (forall c, p c = true -> q c = true) ->
  allChars p s = true -> allChars q s = true.
Proof.
  intros Hpq; induction s as [|c s IH]; simpl; intros H; [reflexivity|].
  apply andb_prop in H as [Hc Hs].
  now rewrite (Hpq c Hc), IH.
Qed.

Lemma allChars_mapChars (p q : ascii -> bool) (f : ascii -> ascii) (s : string) :
  (forall c, p c = true -> q (f c) = true) ->
  allChars p s = true -> allChars q (mapChars f s) = true.
Proof.
  intros Hf; induction s as [|c s IH]; simpl; intros H; [reflexivity|].
  apply andb_prop in H as [Hc Hs].
  now rewrite (Hf c Hc), IH.
Qed.

Lemma allChars_filterChars (p q : ascii -> bool) (s : string) :
  allChars p s = true ->
  allChars (fun c => q c && p c) (filterChars q s) = true.
Proof.
  induction s as [|c s IH]; simpl; intros H; [reflexivity|].
  apply andb_prop in H as [Hc Hs].
  destruct (q c) eqn:E; simpl; [rewrite E, Hc; simpl|]; now apply IH.
Qed.

Lemma allChars_take (p : ascii -> bool) (n : nat) (s : string) :
  allChars p s = true -> allChars p (take n s) = true.
Proof.
  revert s; induction n as [|n IH]; intros [|c s]; simpl; try reflexivity.
  intros H; apply andb_prop in H as [Hc Hs]. now rewrite Hc, IH.
Qed.

Lemma allChars_app (p : ascii -> bool) (s t : string) :
  allChars p s = true -> allChars p t = true -> allChars p (s ++ t) = true.
Proof.
  intros Hs Ht; induction s as [|c s IH]; simpl in *; [exact Ht|].
  apply andb_prop in Hs as [Hc Hs]. now rewrite Hc, IH.
Qed.

Lemma allChars_fill (p : ascii -> bool) (n : nat) (pad : string) :
  allChars p pad = true ->
  forall rest, allChars p rest = true -> allChars p (fill n pad rest) = true.
Proof.
  intros Hpad; induction n as [|n IH]; intros rest Hrest; simpl;
    [reflexivity|].
  destruct rest as [|c r]; simpl in *.
  - destruct pad as [|c r]; [reflexivity|]; simpl in *.
    apply andb_prop in Hpad as [Hc Hr]. rewrite Hc; simpl.
    apply IH. exact Hr.
  - apply andb_prop in Hrest as [Hc Hr]. rewrite Hc; simpl. now apply IH.
Qed.

(** The ten digits. *)
Lemma isDigit_cases (c : ascii) :
  isDigit c = true ->
  In c ["0"; "1"; "2"; "3"; "4"; "5"; "6"; "7"; "8"; "9"]%char.
Proof.
  destruct c as [[] [] [] [] [] [] [] []]; intros H;
    vm_compute in H; try discriminate H; simpl; tauto.
Qed.

End JSFacts.

(* ================================================================= *)
(** ** The normalizer *)

Section Normalizer.
Import JS JSFacts.

Lemma filler_nonempty : "<" <> "".
Proof. discriminate. Qed.

Lemma fitWidth_length (w : nat) (l : string) :
  String.length (fitWidth w l) = w.
Proof.
  unfold fitWidth.
  rewrite (length_padEnd w "<" _ filler_nonempty).
  rewrite substring_from_0, length_take. lia.
Qed.

Lemma fitWidth_exact (w : nat) (l : string) :
  String.length l = w -> fitWidth w l = l.
Proof.
  intros H; unfold fitWidth.
  rewrite substring_from_0, take_all by lia.
  apply padEnd_full; lia.
Qed.

Lemma Forall_fitWidth (w n : nat) (cleaned : list string) :
  Forall (fun l => String.length l = w) (map (fitWidth w) (slice0 n cleaned)).
Proof.
  apply Forall_forall; intros l Hin.
  apply in_map_iff in Hin as [l0 [<- _]]. apply fitWidth_length.
Qed.

Lemma fitWidth_all_exact (w n : nat) (cleaned : list string) :
  List.length cleaned = n ->
  Forall (fun l => String.length l = w) cleaned ->
  map (fitWidth w) (slice0 n cleaned) = cleaned.
Proof.
  intros Hn Hall; unfold slice0.
  rewrite <- Hn, firstn_all. clear Hn.
  induction Hall as [|l ls Hl _ IH]; simpl; [reflexivity|].
  now rewrite (fitWidth_exact w l Hl), IH.
Qed.

Lemma normalizedChar_stable (c : ascii) :
  normalizedChar c = true -> stableChar c = true.
Proof.
  destruct c as [[] [] [] [] [] [] [] []]; intros H;
    vm_compute in H; try discriminate H; reflexivity.
Qed.

Lemma stableChar_not_space (c : ascii) :
  stableChar c = true -> isWhiteSpace c = false.
Proof.
  unfold stableChar; intros H.
  apply andb_prop in H as [H _]; apply andb_prop in H as [H _].
  now apply negb_true_iff in H.
Qed.

Lemma stableChar_upcase (c : ascii) :
  stableChar c = true -> upcase c = c.
Proof.
  unfold stableChar, upcase; intros H.
  apply andb_prop in H as [H _]; apply andb_prop in H as [_ H].
  apply negb_true_iff in H. now rewrite H.
Qed.

Lemma stableChar_keeps (c : ascii) :
  stableChar c = true -> (if Ascii.eqb c "O" then "0"%char else c) = c.
Proof.
  unfold stableChar; intros H; apply andb_prop in H as [_ H].
  now destruct (Ascii.eqb c "O").
Qed.

Lemma upperLine_id (line : string) :
  allChars stableChar line = true -> upperLine line = line.
Proof.
  intros H; unfold upperLine.
  rewrite (trim_id stableChar line stableChar_not_space H).
  exact (mapChars_id upcase stableChar line stableChar_upcase H).
Qed.

Lemma cleanLine_id (line : string) :
  allChars stableChar line = true -> cleanLine line = line.
Proof.
  intros H; unfold cleanLine, removeWhiteSpace.
  rewrite replaceAll_same.
  rewrite (filterChars_id _ stableChar line); [|  | exact H].
  - exact (mapChars_id _ stableChar line stableChar_keeps H).
  - intros c Hc. now rewrite (stableChar_not_space c Hc).
Qed.

Lemma normalize_stable (w : nat) (line : string) :
  allChars stableChar line = true -> String.length line = w ->
  normalize w line = line.
Proof.
  intros Hchars Hlen; unfold normalize.
  rewrite (upperLine_id line Hchars), (cleanLine_id line Hchars).
  exact (fitWidth_exact w line Hlen).
Qed.

(** What the transform produces is made of stable characters. *)

Lemma upcase_not_lower (c : ascii) : isLower (upcase c) = false.
Proof. destruct c as [[] [] [] [] [] [] [] []]; reflexivity. Qed.

Lemma replaced_stable (c : ascii) :
  negb (isWhiteSpace c) && negb (isLower c) = true ->
  stableChar (if Ascii.eqb c "O" then "0"%char else c) = true.
Proof.
  intros H. destruct (Ascii.eqb c "O") eqn:E; [reflexivity|].
  unfold stableChar. now rewrite H, E.
Qed.

Lemma cleanLine_upperLine_stable (line : string) :
  allChars stableChar (cleanLine (upperLine line)) = true.
Proof.
  unfold cleanLine, upperLine, removeWhiteSpace, toUpperCase.
  rewrite replaceAll_same. unfold replaceAll.
  apply (allChars_mapChars
           (fun c => negb (isWhiteSpace c) && negb (isLower c)));
    [exact replaced_stable|].
  apply (allChars_filterChars (fun c => negb (isLower c))).
  apply (allChars_mapChars (fun _ => true)).
  - intros c _. now rewrite upcase_not_lower.
  - now induction (trim line) as [|c r IH].
Qed.

Lemma fitWidth_stable (w : nat) (l : string) :
  allChars stableChar l = true -> allChars stableChar (fitWidth w l) = true.
Proof.
  intros H; unfold fitWidth, padEnd.
  rewrite substring_from_0. apply allChars_app.
  - now apply allChars_take.
  - now apply allChars_fill.
Qed.

End Normalizer.

(** C5: width invariant.  Whatever the line, the line produced for a
    format attempt at width [W] (upper-cased and trimmed, white space
    removed, O mapped to 0, cut or right-padded with the filler) has length
    exactly [W]; so has every line handed to the parser by the TD1 (30),
    TD2 (36) and TD3 (44) attempts. *)
Theorem width_invariant (line : string) (W : nat) (cleaned : list string) :
  String.length (normalize W line) = W
  /\ String.length (fitWidth W (cleanLine line)) = W
  /\ Forall (fun l => String.length l = 30) (td1Lines cleaned)
  /\ Forall (fun l => String.length l = 36) (td2Lines cleaned)
  /\ Forall (fun l => String.length l = 44) (td3Lines cleaned).
Proof.
  unfold normalize, td1Lines, td2Lines, td3Lines.
  repeat split; auto using fitWidth_length, Forall_fitWidth.
Qed.

(** C8: idempotence of normalization.  A line that is already normalized
    for width [W] (MRZ alphabet, no letter O, length [W]) comes out of the
    normalization transform for width [W] unchanged; and what the transform
    produces for width [W] is a line that it leaves unchanged. *)
Theorem normalize_idempotent (W : nat) (line : string) :
  (isNormalized W line -> normalize W line = line)
  /\ normalize W (normalize W line) = normalize W line.
Proof.
  split.
  - intros [Hchars Hlen]. apply normalize_stable; [|exact Hlen].
    exact (JSFacts.allChars_weaken _ _ line normalizedChar_stable Hchars).
  - apply normalize_stable.
    + unfold normalize. apply fitWidth_stable, cleanLine_upperLine_stable.
    + unfold normalize. apply fitWidth_length.
Qed.

Lemma normalize_idempotent_witness :
  isNormalized 30 "7408122F1204159UT0<<<<<<<<<<<6"
  /\ normalize 30 "7408122F1204159UT0<<<<<<<<<<<6" = "7408122F1204159UT0<<<<<<<<<<<6".
Proof.
  assert (H : isNormalized 30 "7408122F1204159UT0<<<<<<<<<<<6")
    by (split; reflexivity).
  split; [exact H | exact (proj1 (normalize_idempotent 30 _) H)].
Defined.

(* ================================================================= *)
(** ** Date formatting *)

Section Dates.
Import JS JSFacts.

Ltac each_digit H :=
  apply isDigit_cases in H; simpl in H;
  repeat (destruct H as [<- | H]; [ | ]); [ .. | contradiction H ].

Lemma formatMRZDate_six (y1 y2 m1 m2 d1 d2 : ascii) :
  isDigit y1 = true -> isDigit y2 = true ->
  formatMRZDate (Some (str6 y1 y2 m1 m2 d1 d2))
  = century y1 y2 ++ str2 y1 y2 ++ "-" ++ str2 m1 m2 ++ "-" ++ str2 d1 d2.
Proof.
  intros H1 H2; each_digit H1; each_digit H2; reflexivity.
Qed.

Lemma length_six (d : string) :
  String.length d = 6 ->
  exists y1 y2 m1 m2 d1 d2, d = str6 y1 y2 m1 m2 d1 d2.
Proof.
  destruct d as [|y1 [|y2 [|m1 [|m2 [|d1 [|d2 [|x r]]]]]]];
    simpl; intros H; try discriminate H.
  now exists y1, y2, m1, m2, d1, d2.
Qed.

Lemma formatMRZDate_six_nonempty (d : string) :
  String.length d = 6 -> formatMRZDate (Some d) <> "".
Proof.
  intros H; destruct (length_six d H) as (y1 & y2 & m1 & m2 & d1 & d2 & ->).
  unfold formatMRZDate, str6; simpl truthy; simpl String.length; simpl negb.
  simpl orb. cbv iota.
  destruct (lessThan _ 30); discriminate.
Qed.

End Dates.

(** C6: century inference.  For six digits YYMMDD, [formatMRZDate] gives
    the ISO date whose year is 20YY when YY is below 30 and 19YY when YY is
    30 or above; "290101" gives "2029-01-01" and "300101" gives
    "1930-01-01". *)
Theorem century_inference (y1 y2 m1 m2 d1 d2 : ascii) :
  JS.isDigit y1 = true -> JS.isDigit y2 = true ->
  JS.isDigit m1 = true -> JS.isDigit m2 = true ->
  JS.isDigit d1 = true -> JS.isDigit d2 = true ->
  (yearOf y1 y2 < 30 ->
   formatMRZDate (Some (str6 y1 y2 m1 m2 d1 d2))
   = "20" ++ str2 y1 y2 ++ "-" ++ str2 m1 m2 ++ "-" ++ str2 d1 d2)
  /\ (30 <= yearOf y1 y2 ->
      formatMRZDate (Some (str6 y1 y2 m1 m2 d1 d2))
      = "19" ++ str2 y1 y2 ++ "-" ++ str2 m1 m2 ++ "-" ++ str2 d1 d2)
  /\ formatMRZDate (Some "290101") = "2029-01-01"
  /\ formatMRZDate (Some "300101") = "1930-01-01".
Proof.
  intros Hy1 Hy2 _ _ _ _.
  rewrite (formatMRZDate_six y1 y2 m1 m2 d1 d2 Hy1 Hy2); unfold century.
  repeat split.
  - intros Hlt. apply Nat.ltb_lt in Hlt. now rewrite Hlt.
  - intros Hge. apply Nat.ltb_ge in Hge. now rewrite Hge.
Qed.

Lemma century_inference_witness :
  formatMRZDate (Some "290101") = "2029-01-01"
  /\ formatMRZDate (Some "300101") = "1930-01-01".
Proof.
  pose proof (century_inference "2" "9" "0" "1" "0" "1"
                eq_refl eq_refl eq_refl eq_refl eq_refl eq_refl) as [H29 _].
  pose proof (century_inference "3" "0" "0" "1" "0" "1"
                eq_refl eq_refl eq_refl eq_refl eq_refl eq_refl) as [_ [H30 _]].
  split.
  - apply H29. vm_compute. lia.
  - apply H30. vm_compute. lia.
Defined.

(** C7, as the code has it: [formatMRZDate] returns the empty string
    exactly when the date string is undefined or its length is not 6 (the
    empty string included); it never raises.  A string of length 6 is
    formatted whatever its characters. *)
Theorem formatMRZDate_empty_iff (dateStr : option string) :
  formatMRZDate dateStr = ""
  <-> (dateStr = None \/ exists d, dateStr = Some d /\ String.length d <> 6).
Proof.
  split.
  - destruct dateStr as [d|]; [|now left].
    intros H; right; exists d; split; [reflexivity|].
    intros Hlen. exact (formatMRZDate_six_nonempty d Hlen H).
  - intros [-> | (d & -> & Hlen)]; [reflexivity|].
    unfold formatMRZDate.
    apply Nat.eqb_neq in Hlen. rewrite Hlen. simpl.
    now rewrite orb_true_r.
Qed.

(** C7, counterexample: a string of six characters that are not all
    digits is not answered with the empty string. *)
Lemma formatMRZDate_non_digits :
  String.length "7408I2" = 6
  /\ JS.allChars JS.isDigit "7408I2" = false
  /\ formatMRZDate (Some "7408I2") = "1974-08-I2"
  /\ formatMRZDate (Some "7408I2") <> "".
Proof. repeat split; discriminate. Qed.

(** C10: no calendar validation.  For six digits, [formatMRZDate] gives
    the century and the first two digits, then the month and day
    substrings as they stand, whatever their values; "991399" gives
    "1999-13-99". *)
Theorem no_calendar_validation (d : string) :
  String.length d = 6 -> JS.allChars JS.isDigit d = true ->
  formatMRZDate (Some d)
  = (centuryOf d ++ JS.substring 0 2 d) ++ "-" ++ JS.substring 2 4 d
    ++ "-" ++ JS.substring 4 6 d
  /\ formatMRZDate (Some "991399") = "1999-13-99".
Proof.
  intros Hlen Hdig; split; [|reflexivity].
  destruct (length_six d Hlen) as (y1 & y2 & m1 & m2 & d1 & d2 & ->).
  simpl in Hdig.
  apply andb_prop in Hdig as [Hy1 Hdig]. apply andb_prop in Hdig as [Hy2 _].
  rewrite (formatMRZDate_six y1 y2 m1 m2 d1 d2 Hy1 Hy2).
  unfold century; simpl centuryOf; unfold century.
  destruct (yearOf y1 y2 <? 30); reflexivity.
Qed.

Lemma no_calendar_validation_witness :
  formatMRZDate (Some "991399") = "1999-13-99"
  /\ formatMRZDate (Some "000000") = "2000-00-00".
Proof.
  split.
  - exact (proj2 (no_calendar_validation "991399" eq_refl eq_refl)).
  - exact (proj1 (no_calendar_validation "000000" eq_refl eq_refl)).
Defined.

(* ================================================================= *)
(** ** The pipeline, case by case *)

Section Pipeline.

Variable p : Parser.

Lemma length_cleanedLines (text : string) :
  List.length (cleanedLines text) = List.length (mrzLines text).
Proof. unfold cleanedLines; apply length_map. Qed.

Lemma project_settled (cleaned : list string) (r : option Mrz.ParseResult)
      (s : State) :
  project cleaned r s
  = ({| mrzData := fst (settled cleaned (Returns r));
        mrzError := snd (settled cleaned (Returns r));
        parseCalls := parseCalls s |}, Normal tt).
Proof.
  unfold project, settled.
  destruct r as [pr|]; [destruct (Mrz.valid pr)|]; reflexivity.
Qed.

(** No candidate line. *)
Lemma run_no_candidates (text : string) (s : State) :
  List.length (mrzLines text) = 0 ->
  parseMRZFromText p text s
  = (written s (None, Some msgNoMRZ) [], Returns tt).
Proof.
  intros H. unfold parseMRZFromText, call, tryCatch, parseBody, bind.
  rewrite H; simpl. unfold written; simpl. now rewrite app_nil_r.
Qed.

(** One candidate line. *)
Lemma run_one_candidate (text : string) (s : State) :
  List.length (mrzLines text) = 1 ->
  parseMRZFromText p text s
  = (written s (None, Some msgIncomplete) [], Returns tt).
Proof.
  intros H. unfold parseMRZFromText, call, tryCatch, parseBody, bind.
  rewrite H; simpl. unfold selectAndParse.
  rewrite length_map, H; simpl.
  unfold written; simpl. now rewrite app_nil_r.
Qed.

Lemma parseBody_candidates (text : string) (s : State) :
  List.length (mrzLines text) <> 0 ->
  parseBody p text s
  = bind (selectAndParse p (cleanedLines text))
         (project (cleanedLines text)) s.
Proof.
  intros H. apply Nat.eqb_neq in H.
  unfold parseBody. unfold bind at 1. rewrite H. reflexivity.
Qed.

Lemma selectAndParse_two (cleaned : list string) (s : State) :
  List.length cleaned = 2 ->
  selectAndParse p cleaned s
  = callParseMRZ p (if 44 <=? String.length (hd "" cleaned)
                    then td3Lines cleaned else td2Lines cleaned) s.
Proof.
  intros H. unfold selectAndParse. rewrite H.
  change (3 <=? 2) with false. change (2 <=? 2) with true. cbv iota.
  destruct cleaned as [|l1 rest]; [discriminate H|].
  unfold bind, firstLength, ret. cbn [hd].
  now destruct (44 <=? String.length l1).
Qed.

Lemma selectAndParse_three (cleaned : list string) (s : State) :
  3 <= List.length cleaned ->
  selectAndParse p cleaned s
  = tryCatch (callParseMRZ p (td1Lines cleaned))
             (fun _ => callParseMRZ p (td2Lines cleaned)) s.
Proof.
  intros H. apply Nat.leb_le in H.
  unfold selectAndParse. now rewrite H.
Qed.

(** Two candidate lines: one attempt, TD3 or TD2 by the length of the
    first cleaned line. *)
Lemma run_two_candidates (text : string) (s : State) :
  List.length (cleanedLines text) = 2 ->
  let cl := cleanedLines text in
  let ls := if 44 <=? String.length (hd "" cl) then td3Lines cl else td2Lines cl in
  parseMRZFromText p text s
  = (written s (settled cl (p ls)) [ls], Returns tt).
Proof.
  intros H; cbv zeta.
  assert (Hm : List.length (mrzLines text) <> 0)
    by (rewrite <- length_cleanedLines, H; discriminate).
  unfold parseMRZFromText, call, tryCatch.
  rewrite (parseBody_candidates text s Hm).
  unfold bind at 1. rewrite (selectAndParse_two _ s H).
  unfold callParseMRZ.
  destruct (p _) as [r|e]; [rewrite project_settled|]; reflexivity.
Qed.

(** Three candidate lines or more: the TD1 attempt, and the TD2 attempt
    when the TD1 attempt throws. *)
Lemma run_three_candidates (text : string) (s : State) :
  3 <= List.length (cleanedLines text) ->
  let cl := cleanedLines text in
  parseMRZFromText p text s
  = match p (td1Lines cl) with
    | Returns r => (written s (settled cl (Returns r)) [td1Lines cl], Returns tt)
    | Throws _ =>
        (written s (settled cl (p (td2Lines cl))) [td1Lines cl; td2Lines cl],
         Returns tt)
    end.
Proof.
  intros H; cbv zeta.
  assert (Hm : List.length (mrzLines text) <> 0)
    by (rewrite <- length_cleanedLines; lia).
  unfold parseMRZFromText, call.
  unfold tryCatch at 1.
  rewrite (parseBody_candidates text s Hm).
  unfold bind at 1. rewrite (selectAndParse_three _ s H).
  unfold tryCatch, callParseMRZ.
  destruct (p (td1Lines (cleanedLines text))) as [r|e].
  - rewrite project_settled. reflexivity.
  - cbn [parseCalls mrzData mrzError].
    destruct (p (td2Lines (cleanedLines text))) as [r|e'].
    + rewrite project_settled. unfold written.
      cbn [parseCalls mrzData mrzError fst snd].
      now rewrite <- app_assoc.
    + unfold written, settled, bind, setMrzData, setMrzError.
      cbn [parseCalls mrzData mrzError fst snd].
      now rewrite <- app_assoc.
Qed.

End Pipeline.

(* ================================================================= *)
(** ** Properties of the pipeline *)

Lemma settled_invalid (cleaned : list string) (r : option Mrz.ParseResult) :
  reportsInvalid r ->
  settled cleaned (Returns r) = (None, Some msgValidationFailed).
Proof.
  unfold reportsInvalid, settled.
  destruct r as [pr|]; [intros ->|]; reflexivity.
Qed.

Lemma settled_exactly_one (cleaned : list string)
      (o : Outcome (option Mrz.ParseResult)) :
  (fst (settled cleaned o) = None /\ snd (settled cleaned o) <> None)
  \/ (fst (settled cleaned o) <> None /\ snd (settled cleaned o) = None).
Proof.
  unfold settled.
  destruct o as [[pr|]|e]; [destruct (Mrz.valid pr)| |]; simpl;
    first [left; split; [reflexivity | discriminate]
          | right; split; [discriminate | reflexivity]].
Qed.

Lemma settled_rawMRZ (cleaned : list string)
      (o : Outcome (option Mrz.ParseResult)) (d : MRZData) :
  fst (settled cleaned o) = Some d -> rawMRZ d = cleaned /\ valid d = true.
Proof.
  unfold settled.
  destruct o as [[pr|]|e]; [destruct (Mrz.valid pr) eqn:V| |]; simpl;
    try discriminate.
  intros [= <-]; simpl. now split.
Qed.

Lemma candidates_cases (text : string) :
  List.length (mrzLines text) = 0 \/ List.length (mrzLines text) = 1
  \/ List.length (cleanedLines text) = 2 \/ 3 <= List.length (cleanedLines text).
Proof. rewrite length_cleanedLines. lia. Qed.

(** C1, as the code has it: format selection.  With 3 candidate lines or
    more the first 3 lines at width 30 are parsed as TD1; the first 2 lines
    at width 36 are parsed as TD2 only when the TD1 parse throws, and a
    valid TD2 result is then the record produced.  A TD1 parse that returns
    is the only attempt, and one that reports invalid gives the
    validation diagnostic.  With exactly 2 candidate lines the only attempt
    is TD3 (width 44) when the first cleaned line has 44 characters or
    more, TD2 (width 36) otherwise. *)
Theorem format_selection (p : Parser) (text : string) (s : State) :
  let cl := cleanedLines text in
  let s' := final p text s in
  (3 <= List.length (mrzLines text) ->
   (forall r, p (td1Lines cl) = Returns r ->
      parseCalls s' = (parseCalls s ++ [td1Lines cl])%list
      /\ (reportsInvalid r ->
          mrzData s' = None /\ mrzError s' = Some msgValidationFailed)
      /\ (forall pr, r = Some pr -> Mrz.valid pr = true ->
          mrzData s' = Some (mrzRecord cl pr) /\ mrzError s' = None))
   /\ (forall e, p (td1Lines cl) = Throws e ->
      parseCalls s' = (parseCalls s ++ [td1Lines cl; td2Lines cl])%list
      /\ (forall r, p (td2Lines cl) = Returns (Some r) -> Mrz.valid r = true ->
          mrzData s' = Some (mrzRecord cl r) /\ mrzError s' = None)))
  /\ (List.length (mrzLines text) = 2 -> 44 <= String.length (hd "" cl) ->
      parseCalls s' = (parseCalls s ++ [td3Lines cl])%list)
  /\ (List.length (mrzLines text) = 2 -> String.length (hd "" cl) < 44 ->
      parseCalls s' = (parseCalls s ++ [td2Lines cl])%list).
Proof.
  cbv zeta; unfold final. split; [|split].
  - intros H3. rewrite <- length_cleanedLines in H3.
    pose proof (run_three_candidates p text s H3) as R; cbv zeta in R.
    split.
    + intros r Hr. rewrite Hr in R. rewrite R. unfold written.
      cbn [fst snd parseCalls mrzData mrzError].
      split; [reflexivity|]. split.
      * intros Hinv. rewrite (settled_invalid _ _ Hinv). now split.
      * intros pr -> Hv. unfold settled. rewrite Hv. now split.
    + intros e He. rewrite He in R. rewrite R. unfold written.
      cbn [fst snd parseCalls mrzData mrzError].
      split; [reflexivity|].
      intros r Hr Hv. rewrite Hr. unfold settled. rewrite Hv. now split.
  - intros H2 H44. rewrite <- length_cleanedLines in H2.
    rewrite (run_two_candidates p text s H2).
    apply Nat.leb_le in H44. now rewrite H44.
  - intros H2 H44. rewrite <- length_cleanedLines in H2.
    rewrite (run_two_candidates p text s H2).
    apply Nat.leb_gt in H44. now rewrite H44.
Qed.

(** The rule read as a third line makes the TD1 attempt throw, and the
    record comes from the TD2 attempt on the first two lines; the two lines
    of the TD3 specimen are parsed at width 44, those of the TD2 specimen
    at width 36. *)
Lemma format_selection_witness :
  (let cl := cleanedLines ruledThirdText in
   let s' := final MrzPackage.parse ruledThirdText initialState in
   parseCalls s' = [td1Lines cl; td2Lines cl]
   /\ (exists d, mrzData s' = Some d /\ documentNumber d = "D23145890")
   /\ mrzError s' = None)
  /\ parseCalls (final MrzModel.parse td3Text initialState)
     = [td3Lines (cleanedLines td3Text)]
  /\ parseCalls (final MrzModel.parse td2Text initialState)
     = [td2Lines (cleanedLines td2Text)].
Proof.
  cbv zeta. split; [|split].
  - destruct (format_selection MrzPackage.parse ruledThirdText initialState)
      as [H3 _].
    assert (Hn : 3 <= List.length (mrzLines ruledThirdText))
      by (vm_compute; lia).
    destruct (H3 Hn) as [_ Hthrow].
    destruct (MrzPackage.parse (td1Lines (cleanedLines ruledThirdText)))
      as [r|e] eqn:E1; [vm_compute in E1; discriminate E1|].
    destruct (Hthrow e eq_refl) as [Hcalls Hrec].
    destruct (MrzPackage.parse (td2Lines (cleanedLines ruledThirdText)))
      as [[r|]|e'] eqn:E2;
      [ | vm_compute in E2; discriminate E2 | vm_compute in E2; discriminate E2].
    assert (Hv : Mrz.valid r = true)
      by (vm_compute in E2; injection E2 as <-; reflexivity).
    destruct (Hrec r eq_refl Hv) as [Hd He].
    split; [exact Hcalls|]. split; [|exact He].
    exists (mrzRecord (cleanedLines ruledThirdText) r). split; [exact Hd|].
    vm_compute in E2; injection E2 as <-; reflexivity.
  - destruct (format_selection MrzModel.parse td3Text initialState)
      as [_ [H44 _]].
    apply H44; vm_compute; [reflexivity | lia].
  - destruct (format_selection MrzModel.parse td2Text initialState)
      as [_ [_ H36]].
    apply H36; vm_compute; [reflexivity | lia].
Defined.

(** C1, counterexample: three TD2-shaped lines whose TD1 parse reports
    invalid, and whose first two lines are a valid TD2 document: the TD1
    attempt is the only one, and the outcome is the validation
    diagnostic. *)
Lemma no_retry_when_td1_reports_invalid :
  let cl := cleanedLines threeTd2Text in
  let s' := final MrzModel.parse threeTd2Text initialState in
  List.length (mrzLines threeTd2Text) = 3
  /\ map String.length cl = [36; 36; 36]
  /\ (exists r, MrzModel.parse (td1Lines cl) = Returns (Some r)
                /\ Mrz.valid r = false)
  /\ (exists r, MrzModel.parse (td2Lines cl) = Returns (Some r)
                /\ Mrz.valid r = true)
  /\ parseCalls s' = [td1Lines cl]
  /\ mrzData s' = None
  /\ mrzError s' = Some msgValidationFailed.
Proof.
  vm_compute.
  repeat split; try (eexists; split; reflexivity).
Qed.

(** C2: exactly one result, and no exception.  For every parser, text
    and state, [parseMRZFromText] returns (it does not throw), and then
    exactly one of [mrzData] and [mrzError] is non-null. *)
Theorem exactly_one_result (p : Parser) (text : string) (s : State) :
  exists s',
    parseMRZFromText p text s = (s', Returns tt)
    /\ ((mrzData s' = None /\ mrzError s' <> None)
        \/ (mrzData s' <> None /\ mrzError s' = None)).
Proof.
  destruct (candidates_cases text) as [H | [H | [H | H]]].
  - rewrite (run_no_candidates p text s H). eexists; split; [reflexivity|].
    left; split; [reflexivity | discriminate].
  - rewrite (run_one_candidate p text s H). eexists; split; [reflexivity|].
    left; split; [reflexivity | discriminate].
  - rewrite (run_two_candidates p text s H). eexists; split; [reflexivity|].
    apply settled_exactly_one.
  - rewrite (run_three_candidates p text s H).
    destruct (p (td1Lines (cleanedLines text))) as [r|e];
      (eexists; split; [reflexivity | apply settled_exactly_one]).
Qed.

(** C3, as the code has it: failure propagation.  A failure thrown by the
    TD1 attempt is swallowed and the TD2 attempt is made.  In the other
    attempts (the TD2 retry, the TD3 or TD2 attempt on 2 lines) a thrown
    failure gives the diagnostic "Could not parse MRZ", and a result that
    reports invalid gives the diagnostic "validation failed". *)
Theorem failure_propagation (p : Parser) (text : string) (s : State) :
  let cl := cleanedLines text in
  let s' := final p text s in
  (3 <= List.length (mrzLines text) ->
   forall e, p (td1Lines cl) = Throws e ->
     parseCalls s' = (parseCalls s ++ [td1Lines cl; td2Lines cl])%list
     /\ (forall e', p (td2Lines cl) = Throws e' ->
         mrzData s' = None /\ mrzError s' = Some msgCouldNotParse)
     /\ (forall r, p (td2Lines cl) = Returns r -> reportsInvalid r ->
         mrzData s' = None /\ mrzError s' = Some msgValidationFailed))
  /\ (List.length (mrzLines text) = 2 ->
      let ls := if 44 <=? String.length (hd "" cl)
                then td3Lines cl else td2Lines cl in
      parseCalls s' = (parseCalls s ++ [ls])%list
      /\ (forall e, p ls = Throws e ->
          mrzData s' = None /\ mrzError s' = Some msgCouldNotParse)
      /\ (forall r, p ls = Returns r -> reportsInvalid r ->
          mrzData s' = None /\ mrzError s' = Some msgValidationFailed)).
Proof.
  cbv zeta; unfold final. split.
  - intros H3 e He. rewrite <- length_cleanedLines in H3.
    pose proof (run_three_candidates p text s H3) as R; cbv zeta in R.
    rewrite He in R. rewrite R. unfold written.
    cbn [fst snd parseCalls mrzData mrzError].
    split; [reflexivity|]. split.
    + intros e' He'. rewrite He'. now split.
    + intros r Hr Hinv. rewrite Hr, (settled_invalid _ _ Hinv). now split.
  - intros H2. rewrite <- length_cleanedLines in H2.
    rewrite (run_two_candidates p text s H2). unfold written.
    cbn [fst snd parseCalls mrzData mrzError].
    split; [reflexivity|]. split.
    + intros e He. rewrite He. now split.
    + intros r Hr Hinv. rewrite Hr, (settled_invalid _ _ Hinv). now split.
Qed.

(** The TD1 attempt on the TD2 document followed by a rule throws and is
    retried as TD2; the TD3 attempt on a line followed by a rule throws;
    the TD2 attempt on two lines of prose and the TD3 attempt on the
    specimen with a wrong check digit report invalid. *)
Lemma failure_propagation_witness :
  parseCalls (final MrzPackage.parse ruledThirdText initialState)
  = [td1Lines (cleanedLines ruledThirdText);
     td2Lines (cleanedLines ruledThirdText)]
  /\ mrzError (final MrzPackage.parse ruledText initialState)
     = Some msgCouldNotParse
  /\ mrzError (final MrzPackage.parse proseText initialState)
     = Some msgValidationFailed
  /\ mrzError (final MrzPackage.parse corruptTd3Text initialState)
     = Some msgValidationFailed.
Proof.
  split; [|split; [|split]].
  - destruct (failure_propagation MrzPackage.parse ruledThirdText initialState)
      as [H3 _].
    assert (Hn : 3 <= List.length (mrzLines ruledThirdText))
      by (vm_compute; lia).
    destruct (MrzPackage.parse (td1Lines (cleanedLines ruledThirdText)))
      as [r|e] eqn:E1; [vm_compute in E1; discriminate E1|].
    exact (proj1 (H3 Hn e eq_refl)).
  - destruct (failure_propagation MrzPackage.parse ruledText initialState)
      as [_ H2].
    assert (Hn : List.length (mrzLines ruledText) = 2)
      by (vm_compute; reflexivity).
    destruct (H2 Hn) as (_ & Hthrow & _).
    refine (proj2 (Hthrow {| message := _ |} _)).
    vm_compute; reflexivity.
  - destruct (failure_propagation MrzPackage.parse proseText initialState)
      as [_ H2].
    assert (Hn : List.length (mrzLines proseText) = 2)
      by (vm_compute; reflexivity).
    destruct (H2 Hn) as (_ & _ & Hinv).
    refine (proj2 (Hinv (Some _) _ _)).
    + vm_compute; reflexivity.
    + vm_compute; reflexivity.
  - destruct (failure_propagation MrzPackage.parse corruptTd3Text initialState)
      as [_ H2].
    assert (Hn : List.length (mrzLines corruptTd3Text) = 2)
      by (vm_compute; reflexivity).
    destruct (H2 Hn) as (_ & _ & Hinv).
    refine (proj2 (Hinv (Some _) _ _)).
    + vm_compute; reflexivity.
    + vm_compute; reflexivity.
Defined.

(** C3, counterexample: two candidate lines, the second a rule.  The first
    cleaned line has 44 characters, so the one attempt is TD3 on two lines
    of width 44; the second holds no character of the MRZ alphabet, the
    parser throws, and the diagnostic is "Could not parse MRZ", not
    "validation failed". *)
Lemma thrown_failure_is_not_validation_failed :
  let cl := cleanedLines ruledText in
  let s' := final MrzPackage.parse ruledText initialState in
  List.length (mrzLines ruledText) = 2
  /\ td3Lines cl = [plainTd3Line1; "--------------------------------------------"]
  /\ (exists e, MrzPackage.parse (td3Lines cl) = Throws e)
  /\ parseCalls s' = [td3Lines cl]
  /\ mrzData s' = None
  /\ mrzError s' = Some msgCouldNotParse
  /\ mrzError s' <> Some msgValidationFailed.
Proof.
  vm_compute.
  repeat split; try (eexists; reflexivity). discriminate.
Qed.

(** C4: fewer than 2 candidate lines.  With no candidate line (the empty
    text has none) the outcome is the diagnostic "No MRZ detected", with
    exactly one it is "Incomplete MRZ detected. Need at least 2 lines.";
    in both cases the parser is not called. *)
Theorem too_few_candidates (p : Parser) (text : string) (s : State) :
  let s' := final p text s in
  (List.length (mrzLines text) = 0 ->
   mrzData s' = None /\ mrzError s' = Some msgNoMRZ
   /\ parseCalls s' = parseCalls s)
  /\ (List.length (mrzLines text) = 1 ->
      mrzData s' = None /\ mrzError s' = Some msgIncomplete
      /\ parseCalls s' = parseCalls s)
  /\ List.length (mrzLines "") = 0.
Proof.
  cbv zeta; unfold final. split; [|split; [|reflexivity]]; intros H.
  - rewrite (run_no_candidates p text s H). unfold written.
    cbn [fst snd parseCalls mrzData mrzError].
    now rewrite app_nil_r.
  - rewrite (run_one_candidate p text s H). unfold written.
    cbn [fst snd parseCalls mrzData mrzError].
    now rewrite app_nil_r.
Qed.

Lemma too_few_candidates_witness :
  (mrzError (final MrzModel.parse "" initialState) = Some msgNoMRZ
   /\ parseCalls (final MrzModel.parse "" initialState) = [])
  /\ (mrzError (final MrzModel.parse oneLineText initialState) = Some msgIncomplete
      /\ parseCalls (final MrzModel.parse oneLineText initialState) = []).
Proof.
  split.
  - destruct (too_few_candidates MrzModel.parse "" initialState) as [H0 _].
    destruct (H0 eq_refl) as (_ & He & Hc). split; [exact He | exact Hc].
  - destruct (too_few_candidates MrzModel.parse oneLineText initialState)
      as [_ [H1 _]].
    assert (Hn : List.length (mrzLines oneLineText) = 1) by (vm_compute; reflexivity).
    destruct (H1 Hn) as (_ & He & Hc). split; [exact He | exact Hc].
Defined.

(** C9, as the code has it: on every successful parse, [rawMRZ] is the
    whole list of cleaned candidate lines (white space removed, O mapped to
    0), as they are before the first 2 or 3 are cut or padded to the target
    width.  It is the list of lines given to the parser when the cleaned
    lines are exactly the lines of the attempt at exactly its width. *)
Theorem rawMRZ_is_cleanedLines (p : Parser) (text : string) (s : State)
        (d : MRZData) :
  mrzData (final p text s) = Some d ->
  rawMRZ d = cleanedLines text
  /\ valid d = true
  /\ (forall cl, List.length cl = 3 ->
        Forall (fun l => String.length l = 30) cl -> td1Lines cl = cl)
  /\ (forall cl, List.length cl = 2 ->
        Forall (fun l => String.length l = 36) cl -> td2Lines cl = cl)
  /\ (forall cl, List.length cl = 2 ->
        Forall (fun l => String.length l = 44) cl -> td3Lines cl = cl).
Proof.
  unfold final; intros Hd.
  assert (Hraw : rawMRZ d = cleanedLines text /\ valid d = true).
  { destruct (candidates_cases text) as [H | [H | [H | H]]].
    - rewrite (run_no_candidates p text s H) in Hd. discriminate Hd.
    - rewrite (run_one_candidate p text s H) in Hd. discriminate Hd.
    - rewrite (run_two_candidates p text s H) in Hd.
      exact (settled_rawMRZ _ _ d Hd).
    - rewrite (run_three_candidates p text s H) in Hd.
      destruct (p (td1Lines (cleanedLines text))) as [r|e];
        exact (settled_rawMRZ _ _ d Hd). }
  destruct Hraw as [Hraw Hvalid].
  split; [exact Hraw|]. split; [exact Hvalid|].
  unfold td1Lines, td2Lines, td3Lines.
  repeat split; intros cl Hn Hall; now apply fitWidth_all_exact.
Qed.

Lemma rawMRZ_is_cleanedLines_witness :
  exists d,
    mrzData (final MrzModel.parse td3Text initialState) = Some d
    /\ rawMRZ d = cleanedLines td3Text.
Proof.
  destruct (mrzData (final MrzModel.parse td3Text initialState))
    as [d|] eqn:E; [|vm_compute in E; discriminate E].
  exists d. split; [reflexivity|].
  exact (proj1 (rawMRZ_is_cleanedLines MrzModel.parse td3Text initialState d E)).
Defined.

(** C9, counterexample: the TD3 specimen read with one more filler at the
    end of line 2 parses as a valid passport from the two lines cut to
    width 44, and [rawMRZ] holds the second line with its 45 characters. *)
Lemma rawMRZ_not_the_lines_parsed :
  let cl := cleanedLines noisyTd3Text in
  let s' := final MrzModel.parse noisyTd3Text initialState in
  exists d,
    mrzData s' = Some d
    /\ valid d = true
    /\ parseCalls s' = [td3Lines cl]
    /\ map String.length (td3Lines cl) = [44; 44]
    /\ map String.length (rawMRZ d) = [44; 45]
    /\ rawMRZ d <> td3Lines cl.
Proof.
  vm_compute. eexists. split; [reflexivity|].
  repeat split. discriminate.
Qed.

(* ================================================================= *)
(** ** Further properties of the pipeline *)

Lemma run_summary (p : Parser) (text : string) (s : State) :
  parseMRZFromText p text s
  = (written s (fst (attemptSummary p (cleanedLines text)))
             (snd (attemptSummary p (cleanedLines text))), Returns tt).
Proof.
  destruct (candidates_cases text) as [H | [H | [H | H]]].
  - rewrite (run_no_candidates p text s H).
    rewrite <- length_cleanedLines in H.
    destruct (cleanedLines text); [reflexivity | discriminate H].
  - rewrite (run_one_candidate p text s H).
    rewrite <- length_cleanedLines in H.
    destruct (cleanedLines text) as [|l1 [|l2 r]]; try discriminate H.
    reflexivity.
  - rewrite (run_two_candidates p text s H).
    destruct (cleanedLines text) as [|l1 [|l2 [|l3 r]]]; try discriminate H.
    reflexivity.
  - rewrite (run_three_candidates p text s H).
    destruct (cleanedLines text) as [|l1 [|l2 [|l3 r]]]; simpl in H; try lia.
    unfold attemptSummary.
    destruct (p (td1Lines (l1 :: l2 :: l3 :: r))); reflexivity.
Qed.

Lemma final_summary (p : Parser) (text : string) (s : State) :
  final p text s
  = written s (fst (attemptSummary p (cleanedLines text)))
            (snd (attemptSummary p (cleanedLines text))).
Proof. unfold final. now rewrite run_summary. Qed.

Lemma td1Lines_shape (cl : list string) :
  3 <= List.length cl -> wellShaped (td1Lines cl).
Proof.
  intros H; left; unfold td1Lines; split; [|apply Forall_fitWidth].
  rewrite length_map. unfold JS.slice0. rewrite length_firstn. lia.
Qed.

Lemma td2Lines_shape (cl : list string) :
  2 <= List.length cl -> wellShaped (td2Lines cl).
Proof.
  intros H; right; left; unfold td2Lines; split; [|apply Forall_fitWidth].
  rewrite length_map. unfold JS.slice0. rewrite length_firstn. lia.
Qed.

Lemma td3Lines_shape (cl : list string) :
  2 <= List.length cl -> wellShaped (td3Lines cl).
Proof.
  intros H; right; right; unfold td3Lines; split; [|apply Forall_fitWidth].
  rewrite length_map. unfold JS.slice0. rewrite length_firstn. lia.
Qed.

(** X1: two transcripts with the same cleaned candidate lines are
    indistinguishable: same signals, same parser calls, same completion. *)
Theorem same_cleaned_lines_same_run (p : Parser) (t1 t2 : string) (s : State) :
  cleanedLines t1 = cleanedLines t2 ->
  parseMRZFromText p t1 s = parseMRZFromText p t2 s.
Proof. intros H. now rewrite !run_summary, H. Qed.

Lemma same_cleaned_lines_same_run_witness :
  cleanedLines "p<utoeriksson<<anna<maria  <<<<" = cleanedLines "P<UT0ERIKSS0N<<ANNA<MARIA<<<<"
  /\ parseMRZFromText MrzModel.parse "p<utoeriksson<<anna<maria  <<<<" initialState
     = parseMRZFromText MrzModel.parse "P<UT0ERIKSS0N<<ANNA<MARIA<<<<" initialState.
Proof.
  assert (H : cleanedLines "p<utoeriksson<<anna<maria  <<<<"
              = cleanedLines "P<UT0ERIKSS0N<<ANNA<MARIA<<<<")
    by (vm_compute; reflexivity).
  split; [exact H|].
  exact (same_cleaned_lines_same_run MrzModel.parse _ _ initialState H).
Defined.

(** X2: the signals written by an invocation do not depend on the state
    it starts from: both are overwritten on every path. *)
Theorem signals_independent_of_prior_state (p : Parser) (text : string)
        (s1 s2 : State) :
  mrzData (final p text s1) = mrzData (final p text s2)
  /\ mrzError (final p text s1) = mrzError (final p text s2).
Proof. rewrite !final_summary. now split. Qed.

(** X3: the parser is called at most twice per invocation, only on 3
    lines of width 30 or on 2 lines of width 36 or 44, and it is called at
    all exactly when there are 2 candidate lines or more. *)
Theorem parser_calls_well_shaped (p : Parser) (text : string) (s : State) :
  exists calls,
    parseCalls (final p text s) = (parseCalls s ++ calls)%list
    /\ List.length calls <= 2
    /\ Forall wellShaped calls
    /\ (calls = [] <-> List.length (mrzLines text) < 2).
Proof.
  rewrite final_summary, <- length_cleanedLines.
  exists (snd (attemptSummary p (cleanedLines text))).
  split; [reflexivity|].
  destruct (cleanedLines text) as [|l1 [|l2 [|l3 r]]].
  - cbn [attemptSummary snd List.length].
    split; [lia|]. split; [constructor|]. split; [lia | reflexivity].
  - cbn [attemptSummary snd List.length].
    split; [lia|]. split; [constructor|]. split; [lia | reflexivity].
  - cbn [attemptSummary snd List.length].
    split; [lia|]. split; [|split; [discriminate | lia]].
    constructor; [|constructor].
    destruct (44 <=? String.length l1);
      [apply td3Lines_shape | apply td2Lines_shape];
      cbn [List.length]; lia.
  - unfold attemptSummary.
    assert (H3 : 3 <= List.length (l1 :: l2 :: l3 :: r))
      by (cbn [List.length]; lia).
    assert (H2 : 2 <= List.length (l1 :: l2 :: l3 :: r))
      by (cbn [List.length]; lia).
    destruct (p (td1Lines (l1 :: l2 :: l3 :: r))); cbn [snd List.length].
    + split; [lia|]. split; [|split; [discriminate | lia]].
      constructor; [now apply td1Lines_shape | constructor].
    + split; [lia|]. split; [|split; [discriminate | lia]].
      constructor; [now apply td1Lines_shape|].
      constructor; [now apply td2Lines_shape | constructor].
Qed.

Lemma settled_error (cl : list string) (o : Outcome (option Mrz.ParseResult)) :
  snd (settled cl o) = None
  \/ snd (settled cl o) = Some msgValidationFailed
  \/ snd (settled cl o) = Some msgCouldNotParse.
Proof.
  unfold settled.
  destruct o as [[pr|]|e]; [destruct (Mrz.valid pr)| |]; simpl; auto.
Qed.

Lemma settled_record (cl : list string) (o : Outcome (option Mrz.ParseResult))
      (d : MRZData) :
  fst (settled cl o) = Some d ->
  exists pr, o = Returns (Some pr) /\ Mrz.valid pr = true /\ d = mrzRecord cl pr.
Proof.
  unfold settled.
  destruct o as [[pr|]|e]; [destruct (Mrz.valid pr) eqn:V| |]; simpl;
    try discriminate.
  intros [= <-]. now exists pr.
Qed.

Lemma messages_distinct :
  msgNoMRZ <> msgIncomplete /\ msgNoMRZ <> msgValidationFailed
  /\ msgNoMRZ <> msgCouldNotParse /\ msgIncomplete <> msgValidationFailed
  /\ msgIncomplete <> msgCouldNotParse /\ msgValidationFailed <> msgCouldNotParse.
Proof. repeat split; discriminate. Qed.

(** X4: the two diagnostics of the candidate count name their cause:
    "No MRZ detected" is reported exactly when there is no candidate line,
    "Incomplete MRZ detected" exactly when there is one. *)
Theorem count_diagnostics_name_their_cause (p : Parser) (text : string)
        (s : State) :
  (mrzError (final p text s) = Some msgNoMRZ
   <-> List.length (mrzLines text) = 0)
  /\ (mrzError (final p text s) = Some msgIncomplete
      <-> List.length (mrzLines text) = 1).
Proof.
  destruct messages_distinct as (D1 & D2 & D3 & D4 & D5 & _).
  rewrite final_summary, <- length_cleanedLines. unfold written.
  cbn [mrzError].
  destruct (cleanedLines text) as [|l1 [|l2 r]].
  - cbn [attemptSummary fst snd List.length].
    split; split; intros H; try reflexivity; try discriminate H;
      exfalso; congruence.
  - cbn [attemptSummary fst snd List.length].
    split; split; intros H; try reflexivity; try discriminate H;
      exfalso; congruence.
  - assert (E : exists o, snd (fst (attemptSummary p (l1 :: l2 :: r)))
                          = snd (settled (l1 :: l2 :: r) o)).
    { unfold attemptSummary. destruct r as [|l3 r].
      - eexists; reflexivity.
      - destruct (p (td1Lines _)); eexists; reflexivity. }
    destruct E as [o ->]. cbn [List.length].
    destruct (settled_error (l1 :: l2 :: r) o) as [-> | [-> | ->]];
      split; split; intros H; try discriminate H; try lia;
      exfalso; congruence.
Qed.

(** X5: a record is never made up: when [mrzData] holds a record, the last
    call to the parser was on lines of a known shape, returned a result
    that reports valid, and the record is built from that result. *)
Theorem record_comes_from_valid_parse (p : Parser) (text : string) (s : State)
        (d : MRZData) :
  mrzData (final p text s) = Some d ->
  exists ls pr,
    last (parseCalls (final p text s)) [] = ls
    /\ wellShaped ls
    /\ p ls = Returns (Some pr)
    /\ Mrz.valid pr = true
    /\ d = mrzRecord (cleanedLines text) pr.
Proof.
  rewrite final_summary. unfold written. cbn [mrzData parseCalls].
  destruct (cleanedLines text) as [|l1 [|l2 [|l3 r]]].
  - discriminate.
  - discriminate.
  - cbn [attemptSummary fst snd]. intros H.
    apply settled_record in H as (pr & Hp & Hv & ->).
    eexists; exists pr. rewrite last_last.
    split; [reflexivity|]. split; [|now repeat split].
    destruct (44 <=? String.length l1);
      [apply td3Lines_shape | apply td2Lines_shape]; cbn [List.length]; lia.
  - unfold attemptSummary.
    destruct (p (td1Lines (l1 :: l2 :: l3 :: r))) as [r1|e] eqn:E1;
      cbn [fst snd]; intros H;
      apply settled_record in H as (pr & Hp & Hv & ->); eexists; exists pr.
    + rewrite last_last. split; [reflexivity|].
      split; [apply td1Lines_shape; cbn [List.length]; lia|].
      rewrite E1. now repeat split.
    + change [td1Lines (l1 :: l2 :: l3 :: r); td2Lines (l1 :: l2 :: l3 :: r)]
        with ([td1Lines (l1 :: l2 :: l3 :: r)]
              ++ [td2Lines (l1 :: l2 :: l3 :: r)])%list.
      rewrite app_assoc, last_last. split; [reflexivity|].
      split; [apply td2Lines_shape; cbn [List.length]; lia|].
      now repeat split.
Qed.

Lemma record_comes_from_valid_parse_witness :
  exists d ls pr,
    mrzData (final MrzModel.parse td1Text initialState) = Some d
    /\ last (parseCalls (final MrzModel.parse td1Text initialState)) [] = ls
    /\ MrzModel.parse ls = Returns (Some pr)
    /\ documentType d = "ID Card".
Proof.
  destruct (mrzData (final MrzModel.parse td1Text initialState))
    as [d|] eqn:E; [|vm_compute in E; discriminate E].
  destruct (record_comes_from_valid_parse MrzModel.parse td1Text initialState d E)
    as (ls & pr & Hl & _ & Hp & _ & Hd).
  exists d, ls, pr. repeat split; try assumption.
  vm_compute in E. injection E as <-. reflexivity.
Defined.

(** X6: with a parser that never throws, the catch-all diagnostic "Could
    not parse MRZ" is never reported and the parser is called at most once:
    the TD2 retry is not made. *)
Theorem never_throwing_parser (p : Parser) (text : string) (s : State) :
  (forall ls, exists r, p ls = Returns r) ->
  mrzError (final p text s) <> Some msgCouldNotParse
  /\ exists calls,
       parseCalls (final p text s) = (parseCalls s ++ calls)%list
       /\ List.length calls <= 1.
Proof.
  intros Htotal.
  destruct messages_distinct as (_ & _ & D3 & _ & D5 & D6).
  assert (Hs : forall cl ls, snd (settled cl (p ls)) <> Some msgCouldNotParse).
  { intros cl ls. destruct (Htotal ls) as [r ->]. unfold settled.
    destruct r as [pr|]; [destruct (Mrz.valid pr)|]; simpl;
      try discriminate; congruence. }
  rewrite final_summary. unfold written. cbn [mrzError parseCalls].
  destruct (cleanedLines text) as [|l1 [|l2 [|l3 r]]].
  - cbn [attemptSummary fst snd]. split; [congruence|].
    exists []. split; [reflexivity | simpl; lia].
  - cbn [attemptSummary fst snd]. split; [congruence|].
    exists []. split; [reflexivity | simpl; lia].
  - cbn [attemptSummary fst snd]. split; [apply Hs|].
    eexists. split; [reflexivity | simpl; lia].
  - unfold attemptSummary.
    pose proof (Hs (l1 :: l2 :: l3 :: r) (td1Lines (l1 :: l2 :: l3 :: r))) as H1.
    destruct (Htotal (td1Lines (l1 :: l2 :: l3 :: r))) as [r1 E1].
    rewrite E1 in *. cbn [fst snd]. split; [exact H1|].
    eexists. split; [reflexivity | simpl; lia].
Qed.

Lemma never_throwing_parser_witness :
  mrzError (final nullParser threeTd2Text initialState) <> Some msgCouldNotParse
  /\ List.length (parseCalls (final nullParser threeTd2Text initialState)) <= 1.
Proof.
  assert (Htotal : forall ls, exists r, nullParser ls = Returns r)
    by (intros ls; exists None; reflexivity).
  destruct (never_throwing_parser nullParser threeTd2Text initialState Htotal)
    as [Hne (calls & Hc & Hlen)].
  split; [exact Hne|]. rewrite Hc. exact Hlen.
Defined.

(* ================================================================= *)
(** ** The classifier and the cleaning of lines *)

Section Classifier.
Import JS JSFacts.

Lemma length_mapChars (f : ascii -> ascii) (s : string) :
  String.length (mapChars f s) = String.length s.
Proof. induction s as [|c s IH]; simpl; [reflexivity | now rewrite IH]. Qed.

Lemma mapChars_mapChars (f g : ascii -> ascii) (s : string) :
  mapChars f (mapChars g s) = mapChars (fun c => f (g c)) s.
Proof. induction s as [|c s IH]; simpl; [reflexivity | now rewrite IH]. Qed.

Lemma mapChars_ext (f g : ascii -> ascii) (s : string) :
  (forall c, f c = g c) -> mapChars f s = mapChars g s.
Proof.
  intros H; induction s as [|c s IH]; simpl; [reflexivity|].
  now rewrite H, IH.
Qed.

Lemma includes_mapChars (x : ascii) (f : ascii -> ascii) (s : string) :
  (forall c, Ascii.eqb (f c) x = Ascii.eqb c x) ->
  includes x (mapChars f s) = includes x s.
Proof.
  intros H; induction s as [|c s IH]; simpl; [reflexivity|].
  now rewrite H, IH.
Qed.

Lemma includes_filterChars (x : ascii) (q : ascii -> bool) (s : string) :
  q x = true -> includes x (filterChars q s) = includes x s.
Proof.
  intros Hq; induction s as [|c s IH]; simpl; [reflexivity|].
  destruct (Ascii.eqb c x) eqn:E.
  - apply Ascii.eqb_eq in E; subst c. rewrite Hq; simpl.
    now rewrite Ascii.eqb_refl.
  - destruct (q c); simpl; [rewrite E|]; exact IH.
Qed.

Lemma includes_nonempty (x : ascii) (s : string) :
  includes x s = true -> s <> "".
Proof. destruct s; [discriminate | discriminate]. Qed.

Lemma allChars_mapChars_eq (p : ascii -> bool) (f : ascii -> ascii) (s : string) :
  (forall c, p (f c) = p c) -> allChars p (mapChars f s) = allChars p s.
Proof.
  intros H; induction s as [|c s IH]; simpl; [reflexivity|].
  now rewrite H, IH.
Qed.

Lemma filterChars_mapChars (q : ascii -> bool) (f : ascii -> ascii) (s : string) :
  (forall c, q (f c) = q c) ->
  filterChars q (mapChars f s) = mapChars f (filterChars q s).
Proof.
  intros H; induction s as [|c s IH]; simpl; [reflexivity|].
  rewrite H, IH. now destruct (q c).
Qed.

Lemma trimStart_mapChars (f : ascii -> ascii) (s : string) :
  (forall c, isWhiteSpace (f c) = isWhiteSpace c) ->
  trimStart (mapChars f s) = mapChars f (trimStart s).
Proof.
  intros H; induction s as [|c s IH]; simpl; [reflexivity|].
  rewrite H. now destruct (isWhiteSpace c).
Qed.

Lemma trimEnd_mapChars (f : ascii -> ascii) (s : string) :
  (forall c, isWhiteSpace (f c) = isWhiteSpace c) ->
  trimEnd (mapChars f s) = mapChars f (trimEnd s).
Proof.
  intros H; induction s as [|c s IH]; simpl; [reflexivity|].
  rewrite IH, H.
  destruct (trimEnd s); simpl; [now destruct (isWhiteSpace c) | reflexivity].
Qed.

Lemma trim_mapChars (f : ascii -> ascii) (s : string) :
  (forall c, isWhiteSpace (f c) = isWhiteSpace c) ->
  trim (mapChars f s) = mapChars f (trim s).
Proof.
  intros H; unfold trim.
  now rewrite trimStart_mapChars, trimEnd_mapChars.
Qed.

Lemma split_nonempty (sep : ascii) (s : string) : split sep s <> [].
Proof.
  induction s as [|c s IH]; simpl; [discriminate|].
  destruct (Ascii.eqb c sep); [discriminate|].
  destruct (split sep s); [contradiction | discriminate].
Qed.

Lemma split_mapChars (sep : ascii) (f : ascii -> ascii) (s : string) :
  (forall c, Ascii.eqb (f c) sep = Ascii.eqb c sep) ->
  split sep (mapChars f s) = map (mapChars f) (split sep s).
Proof.
  intros H; induction s as [|c s IH]; simpl; [reflexivity|].
  rewrite H, IH.
  destruct (Ascii.eqb c sep); [reflexivity|].
  now destruct (split sep s).
Qed.

Lemma split_app (sep : ascii) (a b : string) :
  split sep (a ++ String sep b) = (split sep a ++ split sep b)%list.
Proof.
  induction a as [|c a IH]; simpl.
  - now rewrite Ascii.eqb_refl.
  - rewrite IH. destruct (Ascii.eqb c sep); [reflexivity|].
    pose proof (split_nonempty sep a) as Hne.
    now destruct (split sep a).
Qed.

Lemma replaceAll_O (s : string) : replaceAll "O" "0" s = mapChars zeroO s.
Proof. reflexivity. Qed.

Lemma zeroO_facts (c : ascii) :
  zeroO (zeroO c) = zeroO c
  /\ isWhiteSpace (zeroO c) = isWhiteSpace c
  /\ isMRZChar (zeroO c) = isMRZChar c
  /\ Ascii.eqb (zeroO c) "<" = Ascii.eqb c "<".
Proof. destruct c as [[] [] [] [] [] [] [] []]; repeat split; reflexivity. Qed.

Lemma upcase_facts (c : ascii) :
  upcase (upcase c) = upcase c
  /\ isWhiteSpace (upcase c) = isWhiteSpace c
  /\ Ascii.eqb (upcase c) LF = Ascii.eqb c LF.
Proof. destruct c as [[] [] [] [] [] [] [] []]; repeat split; reflexivity. Qed.

Lemma isCandidate_zeroO (l : string) :
  isCandidate (mapChars zeroO l) = isCandidate l.
Proof.
  unfold isCandidate, matchesMRZPattern, removeWhiteSpace.
  rewrite includes_mapChars by (intros c; apply zeroO_facts).
  rewrite filterChars_mapChars
    by (intros c; f_equal; apply zeroO_facts).
  rewrite allChars_mapChars_eq by (intros c; apply zeroO_facts).
  now rewrite length_mapChars.
Qed.

Lemma cleanLine_zeroO (l : string) :
  cleanLine (mapChars zeroO l) = cleanLine l.
Proof.
  unfold cleanLine, removeWhiteSpace. rewrite !replaceAll_O.
  rewrite filterChars_mapChars
    by (intros c; f_equal; apply zeroO_facts).
  rewrite mapChars_mapChars.
  f_equal. apply mapChars_ext. intros c; apply zeroO_facts.
Qed.

Lemma cleaned_congr (u u' : string -> string) (L : list string) :
  (forall l, mapChars zeroO (u' l) = mapChars zeroO (u l)) ->
  map cleanLine (filter isCandidate (map u' L))
  = map cleanLine (filter isCandidate (map u L)).
Proof.
  intros H; induction L as [|l L IH]; simpl; [reflexivity|].
  assert (Hc : isCandidate (u' l) = isCandidate (u l))
    by now rewrite <- isCandidate_zeroO, H, isCandidate_zeroO.
  assert (Hl : cleanLine (u' l) = cleanLine (u l))
    by now rewrite <- cleanLine_zeroO, H, cleanLine_zeroO.
  rewrite Hc. destruct (isCandidate (u l)); simpl; [rewrite Hl|]; now rewrite IH.
Qed.

(** A character map that keeps line feeds and white space, and that the
    service cannot see after upper-casing and the O to 0 replacement. *)
Lemma cleanedLines_mapChars (f : ascii -> ascii) (text : string) :
  (forall c, Ascii.eqb (f c) LF = Ascii.eqb c LF) ->
  (forall c, isWhiteSpace (f c) = isWhiteSpace c) ->
  (forall c, zeroO (upcase (f c)) = zeroO (upcase c)) ->
  cleanedLines (mapChars f text) = cleanedLines text.
Proof.
  intros Hlf Hws Hz. unfold cleanedLines, mrzLines, lines.
  rewrite (split_mapChars LF f text Hlf), map_map.
  apply cleaned_congr. intros l. unfold upperLine, toUpperCase.
  rewrite (trim_mapChars f l Hws), !mapChars_mapChars.
  apply mapChars_ext. exact Hz.
Qed.

Lemma mrzLines_app (a b : string) :
  mrzLines (a ++ String LF b) = (mrzLines a ++ mrzLines b)%list.
Proof.
  unfold mrzLines, lines. now rewrite split_app, map_app, filter_app.
Qed.

Lemma cleanLine_keeps_filler (c : string) :
  includes "<" c = true -> includes "<" (cleanLine c) = true.
Proof.
  intros H; unfold cleanLine, removeWhiteSpace.
  rewrite replaceAll_same, replaceAll_O.
  rewrite includes_mapChars by (intros x; apply zeroO_facts).
  now rewrite includes_filterChars.
Qed.

Lemma cleanLine_length (c : string) :
  String.length (cleanLine c) = String.length (removeWhiteSpace c).
Proof.
  unfold cleanLine. now rewrite replaceAll_same, replaceAll_O, length_mapChars.
Qed.

Lemma candidate_cleaned (l0 : string) :
  isCandidate (upperLine l0) = true ->
  cleanLine (upperLine l0) <> ""
  /\ allChars stableChar (cleanLine (upperLine l0)) = true
  /\ (includes "<" (cleanLine (upperLine l0)) = true
      \/ 30 <= String.length (cleanLine (upperLine l0))).
Proof.
  intros H.
  assert (Hor : includes "<" (cleanLine (upperLine l0)) = true
                \/ 30 <= String.length (cleanLine (upperLine l0))).
  { unfold isCandidate in H. apply orb_prop in H as [H | H].
    - left. now apply cleanLine_keeps_filler.
    - right. unfold matchesMRZPattern in H. apply andb_prop in H as [_ H].
      apply Nat.leb_le in H. now rewrite cleanLine_length. }
  split; [|split; [apply cleanLine_upperLine_stable | exact Hor]].
  destruct Hor as [Hi | Hl].
  - exact (includes_nonempty _ _ Hi).
  - intros E. rewrite E in Hl. simpl in Hl. lia.
Qed.

End Classifier.

(** X7: every cleaned candidate line is non-empty, free of white space,
    lower case letters and the letter O, and has a filler or at least 30
    characters; a record holds at least 2 lines in [rawMRZ], all of them
    such. *)
Theorem cleaned_lines_hygiene (p : Parser) (text : string) (s : State) :
  Forall (fun l => l <> ""
                   /\ JS.allChars stableChar l = true
                   /\ (JS.includes "<" l = true \/ 30 <= String.length l))
         (cleanedLines text)
  /\ (forall d, mrzData (final p text s) = Some d ->
        2 <= List.length (rawMRZ d)
        /\ Forall (fun l => l <> ""
                            /\ JS.allChars stableChar l = true
                            /\ (JS.includes "<" l = true
                                \/ 30 <= String.length l))
                  (rawMRZ d)).
Proof.
  assert (Hall : Forall (fun l => l <> ""
                   /\ JS.allChars stableChar l = true
                   /\ (JS.includes "<" l = true \/ 30 <= String.length l))
         (cleanedLines text)).
  { apply Forall_forall. intros l Hin.
    unfold cleanedLines in Hin. apply in_map_iff in Hin as (c & <- & Hc).
    unfold mrzLines in Hc. apply filter_In in Hc as [Hc Hcand].
    unfold lines in Hc. apply in_map_iff in Hc as (l0 & <- & _).
    now apply candidate_cleaned. }
  split; [exact Hall|].
  intros d. rewrite final_summary. unfold written. cbn [mrzData].
  intros Hd.
  assert (Hraw : rawMRZ d = cleanedLines text /\ 2 <= List.length (cleanedLines text)).
  { destruct (cleanedLines text) as [|l1 [|l2 [|l3 r]]] eqn:E;
      cbn [attemptSummary fst] in Hd; try discriminate Hd.
    - split; [exact (proj1 (settled_rawMRZ _ _ d Hd)) | simpl; lia].
    - unfold attemptSummary in Hd.
      destruct (p (td1Lines (l1 :: l2 :: l3 :: r))); cbn [fst] in Hd;
        (split; [exact (proj1 (settled_rawMRZ _ _ d Hd)) | simpl; lia]). }
  destruct Hraw as [-> Hlen]. split; [exact Hlen | exact Hall].
Qed.

(** X8: the case of the letters of the transcript is not seen:
    upper-casing the whole transcript first changes nothing. *)
Theorem case_insensitive (p : Parser) (text : string) (s : State) :
  parseMRZFromText p (JS.toUpperCase text) s = parseMRZFromText p text s.
Proof.
  rewrite !run_summary.
  assert (H : cleanedLines (JS.toUpperCase text) = cleanedLines text).
  { apply cleanedLines_mapChars; intros c.
    - apply upcase_facts.
    - apply upcase_facts.
    - f_equal. apply upcase_facts. }
  now rewrite H.
Qed.

(** X9: the letter O and the digit 0 are not told apart: writing 0 for
    every O of the transcript, or for every o, changes nothing. *)
Theorem letter_O_reads_as_zero (p : Parser) (text : string) (s : State) :
  parseMRZFromText p (JS.replaceAll "O" "0" text) s = parseMRZFromText p text s
  /\ parseMRZFromText p (JS.replaceAll "o" "0" text) s = parseMRZFromText p text s.
Proof.
  rewrite !run_summary.
  assert (HO : cleanedLines (JS.replaceAll "O" "0" text) = cleanedLines text).
  { apply cleanedLines_mapChars; intros c;
      destruct c as [[] [] [] [] [] [] [] []]; reflexivity. }
  assert (Ho : cleanedLines (JS.replaceAll "o" "0" text) = cleanedLines text).
  { apply cleanedLines_mapChars; intros c;
      destruct c as [[] [] [] [] [] [] [] []]; reflexivity. }
  now rewrite HO, Ho.
Qed.

(** X10: lines that are not candidates are ignored: text before and after
    the transcript that holds no candidate line changes nothing. *)
Theorem non_candidate_lines_are_ignored (p : Parser)
        (before text after : string) (s : State) :
  mrzLines before = [] -> mrzLines after = [] ->
  parseMRZFromText p (before ++ nl ++ text ++ nl ++ after) s
  = parseMRZFromText p text s.
Proof.
  intros Hb Ha. rewrite !run_summary.
  assert (H : cleanedLines (before ++ nl ++ text ++ nl ++ after)
              = cleanedLines text).
  { unfold cleanedLines.
    change (before ++ nl ++ text ++ nl ++ after)
      with (before ++ String LF (text ++ String LF after)).
    now rewrite !mrzLines_app, Hb, Ha, app_nil_r. }
  now rewrite H.
Qed.

Lemma non_candidate_lines_are_ignored_witness :
  parseMRZFromText MrzModel.parse
    ("REPUBLIC OF UTOPIA" ++ nl ++ td3Text ++ nl ++ "Signature of bearer")
    initialState
  = parseMRZFromText MrzModel.parse td3Text initialState.
Proof.
  apply non_candidate_lines_are_ignored; vm_compute; reflexivity.
Defined.

(* ================================================================= *)
(** ** Labels and dates of the record *)

(** X11: the document type label.  Only the empty code gives "Unknown".
    The label depends on the first character alone, whatever its case,
    when that is one of P, I, A, C, V, D; any other code is echoed as it
    stands in "Document (...)". *)
Theorem document_type_label (c : ascii) (rest : string) :
  (forall code, getDocumentType code = "Unknown" <-> code = "")
  /\ (labelled (JS.upcase c) = true ->
      getDocumentType (String c rest)
      = getDocumentType (String (JS.upcase c) ""))
  /\ (labelled (JS.upcase c) = false ->
      getDocumentType (String c rest)
      = "Document (" ++ String c rest ++ ")")
  /\ map getDocumentType ["P"; "I"; "A"; "C"; "V"; "D"]
     = ["Passport"; "ID Card"; "ID Card (Type A)"; "ID Card (Type C)";
        "Visa"; "Driver's License"].
Proof.
  split; [|split; [|split; [|reflexivity]]].
  - intros code; split; [|intros ->; reflexivity].
    destruct code as [|c0 r0]; [reflexivity|].
    destruct c0 as [[] [] [] [] [] [] [] []]; intros H;
      vm_compute in H; discriminate H.
  - destruct c as [[] [] [] [] [] [] [] []]; intros H;
      vm_compute in H; first [discriminate H | reflexivity].
  - destruct c as [[] [] [] [] [] [] [] []]; intros H;
      vm_compute in H; first [discriminate H | reflexivity].
Qed.

Lemma document_type_label_witness :
  getDocumentType "p<" = "Passport"
  /\ getDocumentType "X1" = "Document (X1)".
Proof.
  split.
  - exact (proj1 (proj2 (document_type_label "p" "<")) eq_refl).
  - exact (proj1 (proj2 (proj2 (document_type_label "X" "1"))) eq_refl).
Defined.

(** X12: the shape of a formatted date.  [formatMRZDate] gives the empty
    string, or 10 characters: "19" or "20", then the 6 characters of the
    date string two by two, with a hyphen after the 4th and after the 6th
    character. *)
Theorem formatMRZDate_shape (dateStr : option string) :
  formatMRZDate dateStr = ""
  \/ exists d,
       dateStr = Some d
       /\ String.length (formatMRZDate dateStr) = 10
       /\ (JS.substring 0 2 (formatMRZDate dateStr) = "19"
           \/ JS.substring 0 2 (formatMRZDate dateStr) = "20")
       /\ JS.substring 2 4 (formatMRZDate dateStr) = JS.substring 0 2 d
       /\ JS.charAt 4 (formatMRZDate dateStr) = "-"
       /\ JS.substring 5 7 (formatMRZDate dateStr) = JS.substring 2 4 d
       /\ JS.charAt 7 (formatMRZDate dateStr) = "-"
       /\ JS.substring 8 10 (formatMRZDate dateStr) = JS.substring 4 6 d.
Proof.
  destruct dateStr as [d|]; [|now left].
  destruct (Nat.eq_dec (String.length d) 6) as [Hlen | Hlen].
  - right. exists d. split; [reflexivity|].
    destruct (length_six d Hlen) as (y1 & y2 & m1 & m2 & d1 & d2 & ->).
    unfold formatMRZDate, str6; simpl JS.truthy; simpl String.length;
      simpl negb; simpl orb; cbv iota.
    destruct (JS.lessThan _ 30); repeat split; auto.
  - left. unfold formatMRZDate.
    apply Nat.eqb_neq in Hlen. rewrite Hlen. simpl.
    now rewrite orb_true_r.
Qed.

(** X13: the century of a year that is not two digits.  A year that
    starts with a character that is no digit, sign or white space is no
    number, and the date is put in the 1900s; a digit followed by a
    character that is no digit is read as that one digit, and the date is
    put in the 2000s (but "0x" and "0X", which are no number). *)
Theorem century_of_malformed_year (y1 y2 m1 m2 d1 d2 : ascii) :
  (JS.isDigit y1 = false -> JS.isWhiteSpace y1 = false ->
   y1 <> "-"%char -> y1 <> "+"%char ->
   formatMRZDate (Some (str6 y1 y2 m1 m2 d1 d2))
   = "19" ++ str2 y1 y2 ++ "-" ++ str2 m1 m2 ++ "-" ++ str2 d1 d2)
  /\ (JS.isDigit y1 = true -> JS.isDigit y2 = false ->
      str2 y1 y2 <> "0x" -> str2 y1 y2 <> "0X" ->
      formatMRZDate (Some (str6 y1 y2 m1 m2 d1 d2))
      = "20" ++ str2 y1 y2 ++ "-" ++ str2 m1 m2 ++ "-" ++ str2 d1 d2).
Proof.
  split.
  - intros Hd Hw Hm Hp.
    destruct y1 as [[] [] [] [] [] [] [] []];
      first [reflexivity
            | discriminate Hd | discriminate Hw
            | exfalso; apply Hm; reflexivity
            | exfalso; apply Hp; reflexivity].
  - intros H1 H2 Hx HX.
    apply JSFacts.isDigit_cases in H1; simpl in H1.
    repeat (destruct H1 as [<- | H1]; [ | ]); [ .. | contradiction H1 ];
      destruct y2 as [[] [] [] [] [] [] [] []];
      first [reflexivity
            | discriminate H2
            | exfalso; apply Hx; reflexivity
            | exfalso; apply HX; reflexivity].
Qed.

Lemma century_of_malformed_year_witness :
  formatMRZDate (Some "AB0101") = "19AB-01-01"
  /\ formatMRZDate (Some "7A0101") = "207A-01-01".
Proof.
  split.
  - apply (proj1 (century_of_malformed_year "A" "B" "0" "1" "0" "1"));
      first [reflexivity | discriminate].
  - apply (proj2 (century_of_malformed_year "7" "A" "0" "1" "0" "1"));
      first [reflexivity | discriminate].
Defined.

(* ================================================================= *)
(** ** Captured images *)

Lemma setCapturedImages_same (sv : Service) :
  setCapturedImages (capturedImages sv) sv = sv.
Proof. now destruct sv. Qed.

Lemma filter_all_true {A : Type} (f : A -> bool) (l : list A) :
  (forall x, In x l -> f x = true) -> filter f l = l.
Proof.
  induction l as [|a l IH]; simpl; intros H; [reflexivity|].
  rewrite (H a (or_introl eq_refl)). f_equal. apply IH.
  intros x Hx. apply H. now right.
Qed.

Lemma keeps_other_ids (uid : string) (img : CapturedImage) :
  negb (String.eqb (imageId img) uid) = true <-> imageId img <> uid.
Proof.
  rewrite negb_true_iff. split.
  - intros H E. apply String.eqb_eq in E. congruence.
  - intros H. now apply String.eqb_neq.
Qed.

(** X14: [removeImage] removes every image with the given id and no
    other, keeps the order of the rest, does nothing when the id is absent
    or when done a second time, and touches no other signal: the MRZ
    signals, [scannedText], [isStreaming], [isScanning] and [scanProgress]
    are as before. *)
Theorem removeImage_removes_the_id (uid : string) (sv : Service) :
  (forall img, In img (capturedImages (removeImage uid sv))
               <-> In img (capturedImages sv) /\ imageId img <> uid)
  /\ capturedImages (removeImage uid sv)
     = filter (fun img => negb (String.eqb (imageId img) uid)) (capturedImages sv)
  /\ removeImage uid (removeImage uid sv) = removeImage uid sv
  /\ ((forall img, In img (capturedImages sv) -> imageId img <> uid) ->
      removeImage uid sv = sv)
  /\ signals (removeImage uid sv) = signals sv
  /\ scannedText (removeImage uid sv) = scannedText sv
  /\ isStreaming (removeImage uid sv) = isStreaming sv
  /\ isScanning (removeImage uid sv) = isScanning sv
  /\ scanProgress (removeImage uid sv) = scanProgress sv.
Proof.
  split; [|split; [reflexivity|split; [|split; [|now repeat split]]]].
  - intros img. unfold removeImage; cbn [capturedImages setCapturedImages].
    rewrite filter_In. now rewrite keeps_other_ids.
  - unfold removeImage; cbn [capturedImages setCapturedImages].
    unfold setCapturedImages; cbn. f_equal.
    apply filter_all_true. intros x Hx. now apply filter_In in Hx.
  - intros H. unfold removeImage.
    rewrite filter_all_true; [apply setCapturedImages_same|].
    intros x Hx. apply keeps_other_ids. now apply H.
Qed.

(** X15: capturing an image under a fresh id and removing that id gives
    the service back as it was. *)
Theorem capture_then_remove (canvas : Canvas) (uuid : string) (now : Z)
        (ty : ImageType) (sv : Service) :
  isStreaming sv = true -> hasContext canvas = true ->
  (forall img, In img (capturedImages sv) -> imageId img <> uuid) ->
  exists img,
    snd (captureImage canvas uuid now ty sv) = Some img
    /\ capturedImages (fst (captureImage canvas uuid now ty sv))
       = (capturedImages sv ++ [img])%list
    /\ removeImage uuid (fst (captureImage canvas uuid now ty sv)) = sv.
Proof.
  intros Hs Hc Hfresh. unfold captureImage. rewrite Hs, Hc. cbn [negb fst snd].
  eexists. split; [reflexivity|]. split; [reflexivity|].
  unfold removeImage; cbn [capturedImages setCapturedImages].
  rewrite filter_app. cbn [filter imageId id].
  rewrite String.eqb_refl. cbn [negb]. rewrite app_nil_r.
  rewrite filter_all_true.
  - destruct sv; reflexivity.
  - intros x Hx. apply keeps_other_ids. now apply Hfresh.
Qed.

Lemma capture_then_remove_witness :
  removeImage "id-1"
    (fst (captureImage {| hasContext := true; toDataURL := fun _ => "data:," |}
                       "id-1" 0%Z license streamingService))
  = streamingService.
Proof.
  destruct (capture_then_remove
              {| hasContext := true; toDataURL := fun _ => "data:," |}
              "id-1" 0%Z license streamingService eq_refl eq_refl)
    as (img & _ & _ & H).
  - intros img Hin. destruct Hin.
  - exact H.
Defined.

(** X17: when the ids of the images are distinct, they stay distinct
    after a capture under a fresh id and after a removal, and removing an
    id that is present removes exactly one image. *)
Theorem distinct_ids_are_kept (canvas : Canvas) (uuid uid : string) (now : Z)
        (ty : ImageType) (sv : Service) :
  NoDup (map imageId (capturedImages sv)) ->
  (~ In uuid (map imageId (capturedImages sv)) ->
   NoDup (map imageId (capturedImages (fst (captureImage canvas uuid now ty sv)))))
  /\ NoDup (map imageId (capturedImages (removeImage uid sv)))
  /\ (In uid (map imageId (capturedImages sv)) ->
      S (List.length (capturedImages (removeImage uid sv)))
      = List.length (capturedImages sv)).
Proof.
  intros Hnd. split; [|split].
  - intros Hfresh. unfold captureImage.
    destruct (isStreaming sv); cbn [negb fst]; [|exact Hnd].
    destruct (hasContext canvas); cbn [negb fst]; [|exact Hnd].
    cbn [capturedImages setCapturedImages]. rewrite map_app.
    cbn [map imageId id].
    apply NoDup_app; [exact Hnd | repeat constructor; intros [] |].
    intros x Hx [<- | []]. now apply Hfresh.
  - unfold removeImage; cbn [capturedImages setCapturedImages].
    induction (capturedImages sv) as [|a l IH]; simpl; [constructor|].
    inversion Hnd as [|? ? Hnot Hl]; subst.
    destruct (String.eqb (imageId a) uid); simpl; [now apply IH|].
    constructor; [|now apply IH].
    intros Hin. apply Hnot. apply in_map_iff in Hin as (x & Hx & Hf).
    apply filter_In in Hf as [Hf _]. apply in_map_iff. now exists x.
  - unfold removeImage; cbn [capturedImages setCapturedImages].
    induction (capturedImages sv) as [|a l IH]; simpl; [intros []|].
    inversion Hnd as [|? ? Hnot Hl]; subst.
    destruct (String.eqb (imageId a) uid) eqn:E; simpl.
    + intros _. apply String.eqb_eq in E. f_equal.
      rewrite filter_all_true; [reflexivity|].
      intros x Hx. apply keeps_other_ids. intros Ex. apply Hnot.
      apply in_map_iff. exists x. split; [congruence | exact Hx].
    + intros [Ha | Hin]; [apply String.eqb_neq in E; contradiction|].
      f_equal. now apply IH.
Qed.

(** Two images are held; a third is captured under a new id, and the
    first is removed. *)
Lemma distinct_ids_are_kept_witness :
  NoDup (map imageId (capturedImages twoImagesService))
  /\ NoDup (map imageId
              (capturedImages
                 (fst (captureImage blankCanvas "id-3" 0%Z other
                                    twoImagesService))))
  /\ NoDup (map imageId (capturedImages (removeImage "id-1" twoImagesService)))
  /\ S (List.length (capturedImages (removeImage "id-1" twoImagesService)))
     = List.length (capturedImages twoImagesService).
Proof.
  assert (Hnd : NoDup (map imageId (capturedImages twoImagesService))).
  { constructor; [|constructor; [|constructor]].
    - intros [H | []]. discriminate H.
    - intros []. }
  destruct (distinct_ids_are_kept blankCanvas "id-3" "id-1" 0%Z other
              twoImagesService Hnd) as (Hcap & Hrem & Hone).
  split; [exact Hnd|]. split; [|split; [exact Hrem|]].
  - apply Hcap. intros [H | [H | []]]; discriminate H.
  - apply Hone. left. reflexivity.
Defined.

(* ================================================================= *)
(** ** Scanning *)

Section ScanFacts.

Variable p : Parser.
Variable recognize : string -> Recognition.

Lemma parseMRZFromText_returns (text : string) (s : State) :
  parseMRZFromText p text s = (final p text s, Returns tt).
Proof. unfold final. now rewrite run_summary. Qed.

(** The logger writes [scanProgress] only. *)
Lemma logger_frame (msgs : list LoggerMessage) (sv : Service) :
  let sv' := fold_left (fun acc m => logger m acc) msgs sv in
  isStreaming sv' = isStreaming sv
  /\ capturedImages sv' = capturedImages sv
  /\ scannedText sv' = scannedText sv
  /\ isScanning sv' = isScanning sv
  /\ signals sv' = signals sv.
Proof.
  revert sv; induction msgs as [|m msgs IH]; intros sv; simpl.
  - now repeat split.
  - destruct (IH (logger m sv)) as (H1 & H2 & H3 & H4 & H5).
    rewrite H1, H2, H3, H4, H5. unfold logger.
    destruct (String.eqb (status m) "recognizing text"); now repeat split.
Qed.

Lemma scan_returns (imageData : string) (sv : Service) (raw : string) :
  recognized (recognize imageData) = Returns raw ->
  scanOrEmpty p recognize imageData sv
  = (setScanProgress 100
       (setIsScanning false
          (setSignals
             (final p (JS.trim raw)
                    (signals (fold_left (fun acc m => logger m acc)
                                        (logged (recognize imageData)) sv)))
             (setScannedText (JS.trim raw)
                (fold_left (fun acc m => logger m acc)
                           (logged (recognize imageData)) sv)))),
     JS.trim raw).
Proof.
  intros H. unfold scanOrEmpty, recognizeAndParse. rewrite H.
  cbn [signals setScannedText]. now rewrite parseMRZFromText_returns.
Qed.

Lemma scan_throws (imageData : string) (sv : Service) (e : Error) :
  recognized (recognize imageData) = Throws e ->
  scanOrEmpty p recognize imageData sv
  = (setIsScanning false
       (fold_left (fun acc m => logger m acc)
                  (logged (recognize imageData)) sv), "").
Proof.
  intros H. unfold scanOrEmpty, recognizeAndParse. now rewrite H.
Qed.

End ScanFacts.

(** X18: a scan whose recognition succeeds returns the trimmed text,
    shows it in [scannedText], ends with [isScanning] false and
    [scanProgress] 100, and leaves in the MRZ signals what
    [parseMRZFromText] gives for the trimmed text; the images and
    [isStreaming] are untouched. *)
Theorem scan_of_recognized_text (p : Parser) (recognize : string -> Recognition)
        (imageDataUrl : string) (sv : Service) (raw : string) :
  recognized (recognize imageDataUrl) = Returns raw ->
  let r := scanTextFromImage p recognize imageDataUrl sv in
  snd r = JS.trim raw
  /\ scannedText (fst r) = JS.trim raw
  /\ isScanning (fst r) = false
  /\ scanProgress (fst r) = 100%Z
  /\ mrzData (signals (fst r)) = mrzData (final p (JS.trim raw) (signals sv))
  /\ mrzError (signals (fst r)) = mrzError (final p (JS.trim raw) (signals sv))
  /\ isStreaming (fst r) = isStreaming sv
  /\ capturedImages (fst r) = capturedImages sv.
Proof.
  intros H; cbv zeta. unfold scanTextFromImage.
  rewrite (scan_returns p recognize imageDataUrl _ raw H).
  cbn [fst snd scannedText isScanning scanProgress signals isStreaming
       capturedImages setScanProgress setIsScanning setSignals setScannedText].
  destruct (logger_frame (logged (recognize imageDataUrl)) (beginScan sv))
    as (H1 & H2 & _ & _ & _).
  rewrite H1, H2, !final_summary.
  now repeat split.
Qed.

Lemma scan_of_recognized_text_witness :
  let r := scanTextFromImage MrzModel.parse specimenRecognizer
                             "data:image/jpeg;base64," streamingService in
  snd r = td3Text
  /\ scanProgress (fst r) = 100%Z
  /\ exists d, mrzData (signals (fst r)) = Some d /\ documentType d = "Passport".
Proof.
  cbv zeta.
  destruct (scan_of_recognized_text MrzModel.parse specimenRecognizer
              "data:image/jpeg;base64," streamingService
              ("  " ++ td3Text ++ nl) eq_refl)
    as (H1 & _ & _ & H4 & H5 & _).
  split; [rewrite H1; vm_compute; reflexivity|].
  split; [exact H4|].
  rewrite H5. vm_compute. eexists. split; reflexivity.
Defined.

(** X19: a scan whose recognition fails returns the empty string and
    ends with [isScanning] false; [scannedText] and [mrzData] keep what
    they held before the scan, and [mrzError] is null. *)
Theorem scan_of_failed_recognition (p : Parser)
        (recognize : string -> Recognition)
        (imageDataUrl : string) (sv : Service) (e : Error) :
  recognized (recognize imageDataUrl) = Throws e ->
  let r := scanTextFromImage p recognize imageDataUrl sv in
  snd r = ""
  /\ isScanning (fst r) = false
  /\ scannedText (fst r) = scannedText sv
  /\ mrzData (signals (fst r)) = mrzData (signals sv)
  /\ mrzError (signals (fst r)) = None
  /\ isStreaming (fst r) = isStreaming sv
  /\ capturedImages (fst r) = capturedImages sv.
Proof.
  intros H; cbv zeta. unfold scanTextFromImage.
  rewrite (scan_throws p recognize imageDataUrl _ e H).
  cbn [fst snd scannedText isScanning signals isStreaming capturedImages
       setIsScanning].
  destruct (logger_frame (logged (recognize imageDataUrl)) (beginScan sv))
    as (H1 & H2 & H3 & _ & H5).
  rewrite H1, H2, H3, H5.
  now repeat split.
Qed.

Lemma scan_of_failed_recognition_witness :
  let r := scanTextFromImage MrzModel.parse failingRecognizer
                             "data:image/jpeg;base64," streamingService in
  snd r = "" /\ isScanning (fst r) = false
  /\ mrzError (signals (fst r)) = None.
Proof.
  cbv zeta.
  destruct (scan_of_failed_recognition MrzModel.parse failingRecognizer
              "data:image/jpeg;base64," streamingService
              {| message := "Error attempting to read image." |} eq_refl)
    as (H1 & H2 & _ & _ & H5 & _).
  now repeat split.
Defined.

(** X21: whatever the recognition does, a scan of an image ends with
    [isScanning] false and never leaves both a record and a diagnostic. *)
Theorem scan_always_ends (p : Parser) (recognize : string -> Recognition)
        (imageDataUrl : string) (sv : Service) :
  let sv' := fst (scanTextFromImage p recognize imageDataUrl sv) in
  isScanning sv' = false
  /\ (mrzData (signals sv') = None \/ mrzError (signals sv') = None).
Proof.
  cbv zeta. unfold scanTextFromImage.
  destruct (recognized (recognize imageDataUrl)) as [raw|e] eqn:H.
  - rewrite (scan_returns p recognize imageDataUrl _ raw H).
    cbn [fst isScanning signals setScanProgress setIsScanning setSignals].
    split; [reflexivity|].
    rewrite final_summary. unfold written. cbn [mrzData mrzError].
    assert (Hs : forall cl o, fst (settled cl o) = None \/ snd (settled cl o) = None).
    { intros cl o. destruct (settled_exactly_one cl o) as [[H1 _] | [_ H2]]; auto. }
    destruct (cleanedLines (JS.trim raw)) as [|l1 [|l2 [|l3 r]]];
      cbn [attemptSummary fst snd]; auto.
    unfold attemptSummary.
    destruct (p (td1Lines (l1 :: l2 :: l3 :: r))); cbn [fst snd]; apply Hs.
  - rewrite (scan_throws p recognize imageDataUrl _ e H).
    cbn [fst isScanning signals setIsScanning].
    split; [reflexivity|]. right.
    destruct (logger_frame (logged (recognize imageDataUrl)) (beginScan sv))
      as (_ & _ & _ & _ & H5).
    now rewrite H5.
Qed.

(* ================================================================= *)
(** ** White space in the transcript *)

Section Blanks.
Import JS JSFacts.

Lemma split_filterChars (sep : ascii) (q : ascii -> bool) (s : string) :
  q sep = true ->
  split sep (filterChars q s) = map (filterChars q) (split sep s).
Proof.
  intros Hsep; induction s as [|c s IH]; simpl; [reflexivity|].
  destruct (Ascii.eqb c sep) eqn:E.
  - apply Ascii.eqb_eq in E; subst c. rewrite Hsep; simpl.
    now rewrite Ascii.eqb_refl, IH.
  - pose proof (split_nonempty sep s) as Hne.
    destruct (q c) eqn:Q; simpl.
    + rewrite E, IH. destruct (split sep s); [contradiction|].
      simpl. now rewrite Q.
    + rewrite IH. destruct (split sep s); [contradiction|].
      simpl. now rewrite Q.
Qed.

Lemma filterChars_absorb (q r : ascii -> bool) (s : string) :
  (forall c, r c = true -> q c = true) ->
  filterChars r (filterChars q s) = filterChars r s.
Proof.
  intros H; induction s as [|c s IH]; simpl; [reflexivity|].
  destruct (q c) eqn:Q; simpl.
  - now rewrite IH.
  - destruct (r c) eqn:R; [|exact IH].
    apply H in R. congruence.
Qed.

Lemma removeWhiteSpace_trimStart (s : string) :
  removeWhiteSpace (trimStart s) = removeWhiteSpace s.
Proof.
  unfold removeWhiteSpace; induction s as [|c s IH]; simpl; [reflexivity|].
  destruct (isWhiteSpace c) eqn:W; simpl; [exact IH | now rewrite W].
Qed.

Lemma removeWhiteSpace_trimEnd (s : string) :
  removeWhiteSpace (trimEnd s) = removeWhiteSpace s.
Proof.
  unfold removeWhiteSpace; induction s as [|c s IH]; simpl; [reflexivity|].
  destruct (trimEnd s) as [|c' r'] eqn:E.
  - simpl in IH. rewrite <- IH.
    destruct (isWhiteSpace c) eqn:W; simpl; now rewrite ?W.
  - cbn [filterChars]. cbn [filterChars] in IH. now rewrite IH.
Qed.

Lemma removeWhiteSpace_trim (s : string) :
  removeWhiteSpace (trim s) = removeWhiteSpace s.
Proof.
  unfold trim. now rewrite removeWhiteSpace_trimEnd, removeWhiteSpace_trimStart.
Qed.

Lemma includes_trimStart (x : ascii) (s : string) :
  isWhiteSpace x = false -> includes x (trimStart s) = includes x s.
Proof.
  intros Hx; induction s as [|c s IH]; simpl; [reflexivity|].
  destruct (isWhiteSpace c) eqn:W; [|reflexivity].
  rewrite IH. destruct (Ascii.eqb c x) eqn:E; [|reflexivity].
  apply Ascii.eqb_eq in E. congruence.
Qed.

Lemma includes_trimEnd (x : ascii) (s : string) :
  isWhiteSpace x = false -> includes x (trimEnd s) = includes x s.
Proof.
  intros Hx; induction s as [|c s IH]; simpl; [reflexivity|].
  destruct (trimEnd s) as [|c' r'] eqn:E.
  - simpl in IH. rewrite <- IH, orb_false_r.
    destruct (isWhiteSpace c) eqn:W; simpl; [|now rewrite orb_false_r].
    destruct (Ascii.eqb c x) eqn:Ex; [|reflexivity].
    apply Ascii.eqb_eq in Ex. congruence.
  - cbn [includes]. cbn [includes] in IH. now rewrite IH.
Qed.

Lemma includes_trim (x : ascii) (s : string) :
  isWhiteSpace x = false -> includes x (trim s) = includes x s.
Proof.
  intros Hx; unfold trim.
  now rewrite includes_trimEnd, includes_trimStart.
Qed.

Lemma upcase_filler (c : ascii) :
  Ascii.eqb (upcase c) "<" = Ascii.eqb c "<".
Proof. destruct c as [[] [] [] [] [] [] [] []]; reflexivity. Qed.

(** Candidate lines and cleaned lines, from the line without white
    space. *)
Lemma isCandidate_upperLine (l : string) :
  isCandidate (upperLine l)
  = includes "<" l || matchesMRZPattern (toUpperCase (removeWhiteSpace l)).
Proof.
  unfold isCandidate, upperLine, toUpperCase.
  rewrite (includes_mapChars "<" upcase _ upcase_filler).
  rewrite includes_trim by reflexivity.
  unfold removeWhiteSpace at 1.
  rewrite filterChars_mapChars by (intros c; f_equal; apply upcase_facts).
  fold (removeWhiteSpace (trim l)). now rewrite removeWhiteSpace_trim.
Qed.

Lemma cleanLine_upperLine (l : string) :
  cleanLine (upperLine l)
  = replaceAll "<" "<" (replaceAll "O" "0" (toUpperCase (removeWhiteSpace l))).
Proof.
  unfold cleanLine, upperLine, toUpperCase.
  unfold removeWhiteSpace at 1.
  rewrite filterChars_mapChars by (intros c; f_equal; apply upcase_facts).
  fold (removeWhiteSpace (trim l)). now rewrite removeWhiteSpace_trim.
Qed.

Lemma cleaned_congr_lines (u u' : string -> string) (L : list string) :
  (forall l, isCandidate (u' l) = isCandidate (u l)) ->
  (forall l, cleanLine (u' l) = cleanLine (u l)) ->
  map cleanLine (filter isCandidate (map u' L))
  = map cleanLine (filter isCandidate (map u L)).
Proof.
  intros Hc Hl; induction L as [|l L IH]; simpl; [reflexivity|].
  rewrite Hc. destruct (isCandidate (u l)); simpl; [rewrite Hl|]; now rewrite IH.
Qed.

Lemma cleanedLines_withoutBlanks (text : string) :
  cleanedLines (withoutBlanks text) = cleanedLines text.
Proof.
  unfold cleanedLines, mrzLines, lines, withoutBlanks.
  rewrite split_filterChars by reflexivity. rewrite map_map.
  set (q := fun c => negb (isWhiteSpace c) || Ascii.eqb c LF).
  assert (Hrw : forall l, removeWhiteSpace (filterChars q l) = removeWhiteSpace l).
  { intros l. unfold removeWhiteSpace. apply filterChars_absorb.
    intros c Hc. unfold q. now rewrite Hc. }
  apply cleaned_congr_lines; intros l.
  - rewrite !isCandidate_upperLine, Hrw.
    now rewrite includes_filterChars by reflexivity.
  - now rewrite !cleanLine_upperLine, Hrw.
Qed.

End Blanks.

(** X22: white space within the lines is not seen: taking every white
    space character but the line feeds out of the transcript (spaces,
    tabs, the carriage returns of CRLF line ends) changes nothing. *)
Theorem white_space_is_ignored (p : Parser) (text : string) (s : State) :
  parseMRZFromText p (withoutBlanks text) s = parseMRZFromText p text s.
Proof. now rewrite !run_summary, cleanedLines_withoutBlanks. Qed.
